(** * Court data fetcher (Court_app/main.py): a shallow embedding

    The Flask application of [Court_app/main.py] is embedded as pure
    functions over an explicit store (the three SQLite tables and the
    files under static/pdfs) and an explicit environment (the platform,
    the clock, the HTTP session, the two PDF back ends, the operating
    system and Flask itself).  Every view function takes the environment,
    the submitted form and the store, and returns the HTTP response
    together with the new store.

    Conventions.
    - A [str] is held in UTF-8.  On strings of ASCII characters the
      library functions [int], [str.title] and [strptime] are defined
      here; on the other strings, where white space, digits and letters
      are those of the interpreter's Unicode database, they are fields of
      the [platform].  So is the one choice [strftime] leaves to the C
      library: whether %Y pads a year below 1000 with zeros.
    - Python exceptions are values of [exn]; a function that may raise
      returns a [result].  An exception that leaves a view function is
      answered by Flask with status 500.
    - The database accepts every well-typed statement; an integer
      parameter outside the signed 64-bit range is refused by the sqlite3
      module (OverflowError).  Whether the operating system lets the PDF
      be created under its path, whether [send_file] accepts the download
      name, and what Flask answers where no view of main.py is called
      (the files of the static folder, 404, 405, redirects) are answers of
      the environment of the request.  Failures of the disk or of the
      database file while data is being written are outside the model.
    - [files] records, for each path name the program wrote to, the bytes
      of its last write; two path names can reach one file of the disk. *)

From Stdlib Require Import ZArith Lia Ascii String.
From stdpp Require Import base option list strings gmap.

#[local] Open Scope string_scope.
#[local] Open Scope Z_scope.
#[local] Open Scope list_scope.

(* ===================================================================== *)
(** * Python values the program relies on                                *)
(* ===================================================================== *)

Module Py.

(** ** Exceptions *)

Inductive exn_class : Type :=
| ValueError
| OverflowError
| Exception.          (* any other subclass of Exception *)

(** [exn_str] is [str(e)].  The views catch the ValueError of [int] and
    of [strptime] without reading it; for these the offending text, which
    Python quotes in the message, is left out. *)
Record exn : Type := MkExn { exn_cls : exn_class; exn_str : string }.

Inductive result (A : Type) : Type :=
| Ok (a : A)
| Raise (e : exn).
#[global] Arguments Ok {A} a.
#[global] Arguments Raise {A} e.

Definition bind {A B} (r : result A) (k : A -> result B) : result B :=
  match r with
  | Ok a => k a
  | Raise e => Raise e
  end.

(** ** Characters *)

Definition code (c : ascii) : Z := Z.of_nat (nat_of_ascii c).

(** Py_ISSPACE: space, \t, \n, \v, \f, \r. *)
Definition isspace (c : ascii) : bool :=
  (code c =? 32) || ((9 <=? code c) && (code c <=? 13)).

Definition isdigit (c : ascii) : bool :=
  (48 <=? code c) && (code c <=? 57).

Definition digit_value (c : ascii) : Z := code c - 48.

Definition isupper (c : ascii) : bool := (65 <=? code c) && (code c <=? 90).
Definition islower (c : ascii) : bool := (97 <=? code c) && (code c <=? 122).

Definition chr (n : Z) : ascii := ascii_of_nat (Z.to_nat n).

Definition toupper (c : ascii) : ascii :=
  if islower c then chr (code c - 32) else c.
Definition tolower (c : ascii) : ascii :=
  if isupper c then chr (code c + 32) else c.

(** ** Strings of ASCII characters, and the platform *)

Fixpoint is_ascii (s : string) : bool :=
  match s with
  | String c s' => (code c <? 128) && is_ascii s'
  | EmptyString => true
  end.

(** What the interpreter and its C library decide:
    - [pads_year]: whether [strftime] writes a year below 1000 with four
      digits (glibc writes 5 for the year 5, other C libraries 0005);
    - [unicode_int s]: the value [int(s)] returns for a string with a
      character beyond ASCII, [None] when it raises ValueError;
    - [unicode_strptime s]: the year, month and day that
      [strptime(s, '%Y-%m-%d')] reads from such a string, [None] when the
      string does not match or input is left over;
    - [unicode_title s]: [s.title()] for such a string. *)
Record platform : Type := MkPlatform {
  pads_year : bool;
  unicode_int : string -> option Z;
  unicode_strptime : string -> option (Z * Z * Z);
  unicode_title : string -> string
}.

(** ** [int(s)] for a [str] argument, base 10 *)

Fixpoint skip_spaces (s : string) : string :=
  match s with
  | String c s' => if isspace c then skip_spaces s' else s
  | EmptyString => s
  end.

(** The digit scan of PyLong_FromString: digits with single underscores
    between them.  [prev_us] tells whether the previous character was an
    underscore; the result is the value, the number of digits and the
    unread rest. *)
Fixpoint scan_digits (s : string) (prev_us : bool) (acc : Z) (n : Z)
  : option (Z * Z * string) :=
  match s with
  | String c s' =>
      if isdigit c then scan_digits s' false (acc * 10 + digit_value c) (n + 1)
      else if Ascii.eqb c "_" then
        if prev_us then None else scan_digits s' true acc n
      else if prev_us then None else Some (acc, n, s)
  | EmptyString => if prev_us then None else Some (acc, n, s)
  end.

(** sys.int_info.default_max_str_digits *)
Definition max_str_digits : Z := 4300.

Definition int_literal_error : exn :=
  MkExn ValueError "invalid literal for int() with base 10".

(** PyLong_FromString on a buffer of ASCII characters. *)
Definition long_from_string (s : string) : result Z :=
  let s1 := skip_spaces s in
  let '(sign, s2) :=
    match s1 with
    | String "+" r => (1, r)
    | String "-" r => (-1, r)
    | _ => (1, s1)
    end in
  match s2 with
  | String "_" _ => Raise int_literal_error
  | _ =>
      match scan_digits s2 false 0 0 with
      | Some (v, n, rest) =>
          if n =? 0 then Raise int_literal_error
          else if negb (String.eqb (skip_spaces rest) "") then Raise int_literal_error
          else if max_str_digits <? n then
            Raise (MkExn ValueError "Exceeds the limit (4300 digits) for integer string conversion")
          else Ok (sign * v)
      | None => Raise int_literal_error
      end
  end.

Definition int (p : platform) (s : string) : result Z :=
  if is_ascii s then long_from_string s
  else
    match unicode_int p s with
    | Some v => Ok v
    | None => Raise int_literal_error
    end.

(** ** Truthiness of an optional string: [None] and [''] are false *)

Definition truthy (o : option string) : bool :=
  match o with
  | Some s => negb (String.eqb s "")
  | None => false
  end.

(** ** [str.replace(old, new)] for one-character [old] and [new] *)

Fixpoint replace_char (old new : ascii) (s : string) : string :=
  match s with
  | String c s' =>
      String (if Ascii.eqb c old then new else c) (replace_char old new s')
  | EmptyString => EmptyString
  end.

(** ** [str.title()]: a cased character is upper-cased after an uncased
    one (or at the start) and lower-cased after a cased one. *)

Fixpoint title_from (prev_cased : bool) (s : string) : string :=
  match s with
  | String c s' =>
      if islower c then
        String (if prev_cased then c else toupper c) (title_from true s')
      else if isupper c then
        String (if prev_cased then tolower c else c) (title_from true s')
      else String c (title_from false s')
  | EmptyString => EmptyString
  end.

Definition title (p : platform) (s : string) : string :=
  if is_ascii s then title_from false s else unicode_title p s.

(** ** Decimal output with zero padding to [w] digits ([%04d], [%02d]) *)

Fixpoint zpad (w : nat) (n : Z) : string :=
  match w with
  | O => ""
  | S w' => zpad w' (n / 10) +:+ String (chr (48 + n mod 10)) ""
  end.

End Py.

Notation "x <- r ;; k" := (Py.bind r (fun x => k))
  (at level 100, r at next level, right associativity, only parsing).

(* ===================================================================== *)
(** * [datetime.date], [timedelta(days=n)], [strftime] and [strptime]    *)
(* ===================================================================== *)

Module Datetime.

Record date : Type := MkDate { year : Z; month : Z; day : Z }.

Definition MINYEAR : Z := 1.
Definition MAXYEAR : Z := 9999.
(** date.max.toordinal() *)
Definition MAXORDINAL : Z := 3652059.

Definition DAYS_IN_MONTH : list Z :=
  [-1; 31; 28; 31; 30; 31; 30; 31; 31; 30; 31; 30; 31].
Definition DAYS_BEFORE_MONTH : list Z :=
  [-1; 0; 31; 59; 90; 120; 151; 181; 212; 243; 273; 304; 334].

Definition at_index (l : list Z) (i : Z) : Z := nth (Z.to_nat i) l 0.

Definition is_leap (y : Z) : bool :=
  (y mod 4 =? 0) && (negb (y mod 100 =? 0) || (y mod 400 =? 0)).

Definition days_before_year (y : Z) : Z :=
  let y := y - 1 in y * 365 + y / 4 - y / 100 + y / 400.

Definition days_in_month (y m : Z) : Z :=
  if (m =? 2) && is_leap y then 29 else at_index DAYS_IN_MONTH m.

Definition days_before_month (y m : Z) : Z :=
  at_index DAYS_BEFORE_MONTH m + (if (2 <? m) && is_leap y then 1 else 0).

Definition ymd2ord (y m d : Z) : Z :=
  days_before_year y + days_before_month y m + d.

Definition DI400Y : Z := 146097.
Definition DI100Y : Z := 36524.
Definition DI4Y : Z := 1461.

Definition ord2ymd (n : Z) : date :=
  let n := n - 1 in
  let n400 := n / DI400Y in
  let n := n mod DI400Y in
  let y := n400 * 400 + 1 in
  let n100 := n / DI100Y in
  let n := n mod DI100Y in
  let n4 := n / DI4Y in
  let n := n mod DI4Y in
  let n1 := n / 365 in
  let n := n mod 365 in
  let y := y + n100 * 100 + n4 * 4 + n1 in
  if (n1 =? 4) || (n100 =? 4) then MkDate (y - 1) 12 31
  else
    let leapyear := (n1 =? 3) && (negb (n4 =? 24) || (n100 =? 3)) in
    let m := Z.shiftr (n + 50) 5 in
    let preceding :=
      at_index DAYS_BEFORE_MONTH m + (if (2 <? m) && leapyear then 1 else 0) in
    if n <? preceding then
      let m := m - 1 in
      let preceding :=
        preceding
        - (at_index DAYS_IN_MONTH m + (if (m =? 2) && leapyear then 1 else 0)) in
      MkDate y m (n - preceding + 1)
    else MkDate y m (n - preceding + 1).

Definition toordinal (d : date) : Z := ymd2ord (year d) (month d) (day d).

(** The constructor [date(y, m, d)] with its range checks. *)
Definition make_date (y m d : Z) : Py.result date :=
  if negb ((MINYEAR <=? y) && (y <=? MAXYEAR)) then
    Py.Raise (Py.MkExn Py.ValueError "year is out of range")
  else if negb ((1 <=? m) && (m <=? 12)) then
    Py.Raise (Py.MkExn Py.ValueError "month must be in 1..12")
  else if negb ((1 <=? d) && (d <=? days_in_month y m)) then
    Py.Raise (Py.MkExn Py.ValueError "day is out of range for month")
  else Py.Ok (MkDate y m d).

(** [d + timedelta(days=n)] *)
Definition add_days (d : date) (n : Z) : Py.result date :=
  let o := toordinal d + n in
  if (0 <? o) && (o <=? MAXORDINAL) then Py.Ok (ord2ymd o)
  else Py.Raise (Py.MkExn Py.OverflowError "date value out of range").

(** %Y, for the years 1..9999 of a date: the year in decimal, with four
    digits from 1000 on; below, the C library pads it with zeros or does
    not. *)
Definition strftime_Y (p : Py.platform) (y : Z) : string :=
  if Py.pads_year p || (1000 <=? y) then Py.zpad 4 y
  else if 100 <=? y then Py.zpad 3 y
  else if 10 <=? y then Py.zpad 2 y
  else Py.zpad 1 y.

(** [d.strftime("%Y-%m-%d")] and [d.strftime("%Y%m%d")] *)
Definition strftime_Y_m_d (p : Py.platform) (d : date) : string :=
  strftime_Y p (year d) +:+ "-" +:+ Py.zpad 2 (month d) +:+ "-" +:+ Py.zpad 2 (day d).

Definition strftime_Ymd (p : Py.platform) (d : date) : string :=
  strftime_Y p (year d) +:+ Py.zpad 2 (month d) +:+ Py.zpad 2 (day d).

(** ** [datetime.strptime(s, '%Y-%m-%d').date()]

    The format compiles to the regular expression
      (?P<Y>\d\d\d\d)-(?P<m>1[0-2]|0[1-9]|[1-9])-
      (?P<d>3[0-1]|[1-2]\d|0[1-9]|[1-9]| [1-9])
    matched at the start of the string; input left over after the match
    is an error.  In a string of ASCII characters \d is one of 0..9.  An
    alternative is a function from the input to the matched text and the
    rest. *)

Definition alt : Type := string -> option (string * string).

Definition in_range (lo hi : ascii) (c : ascii) : bool :=
  (Py.code lo <=? Py.code c) && (Py.code c <=? Py.code hi).

Definition one (p : ascii -> bool) : alt := fun s =>
  match s with
  | String c r => if p c then Some (String c "", r) else None
  | EmptyString => None
  end.

Definition two (p q : ascii -> bool) : alt := fun s =>
  match s with
  | String c (String c' r) =>
      if p c && q c' then Some (String c (String c' ""), r) else None
  | _ => None
  end.

Definition lit (c : ascii) (s : string) : option string :=
  match s with
  | String c' r => if Ascii.eqb c c' then Some r else None
  | EmptyString => None
  end.

Definition match_Y (s : string) : option (string * string) :=
  match s with
  | String a (String b (String c (String d r))) =>
      if Py.isdigit a && Py.isdigit b && Py.isdigit c && Py.isdigit d
      then Some (String a (String b (String c (String d ""))), r)
      else None
  | _ => None
  end.

Definition m_alternatives : list alt :=
  [ two (Ascii.eqb "1") (in_range "0" "2");
    two (Ascii.eqb "0") (in_range "1" "9");
    one (in_range "1" "9") ].

Definition d_alternatives : list alt :=
  [ two (Ascii.eqb "3") (in_range "0" "1");
    two (in_range "1" "2") Py.isdigit;
    two (Ascii.eqb "0") (in_range "1" "9");
    one (in_range "1" "9");
    two (Ascii.eqb " ") (in_range "1" "9") ].

(** Ordered choice with backtracking into the continuation [k]. *)
Fixpoint first_alt {A} (alts : list alt) (s : string)
    (k : string -> string -> option A) : option A :=
  match alts with
  | a :: alts' =>
      match (match a s with Some (txt, r) => k txt r | None => None end) with
      | Some x => Some x
      | None => first_alt alts' s k
      end
  | [] => None
  end.

(** The groups Y, m, d and the input left after the match. *)
Definition regex_match (s : string) : option (string * string * string * string) :=
  match match_Y s with
  | Some (Y, r1) =>
      match lit "-" r1 with
      | Some r2 =>
          first_alt m_alternatives r2 (fun m r3 =>
            match lit "-" r3 with
            | Some r4 =>
                first_alt d_alternatives r4 (fun d r5 => Some (Y, m, d, r5))
            | None => None
            end)
      | None => None
      end
  | None => None
  end.

Definition does_not_match : Py.exn :=
  Py.MkExn Py.ValueError "time data does not match format '%Y-%m-%d'".

Definition strptime_Y_m_d (p : Py.platform) (s : string) : Py.result date :=
  if Py.is_ascii s then
    match regex_match s with
    | None => Py.Raise does_not_match
    | Some (Y, m, d, rest) =>
        if negb (String.eqb rest "") then
          Py.Raise (Py.MkExn Py.ValueError ("unconverted data remains: " +:+ rest))
        else
          y <- Py.long_from_string Y ;;
          mo <- Py.long_from_string m ;;
          dy <- Py.long_from_string d ;;
          make_date y mo dy
    end
  else
    match Py.unicode_strptime p s with
    | Some (y, mo, dy) => make_date y mo dy
    | None => Py.Raise does_not_match
    end.

End Datetime.

(* ===================================================================== *)
(** * The store: three SQLite tables and the PDF files                   *)
(* ===================================================================== *)

Module Sqlite.

(** A table with an INTEGER PRIMARY KEY AUTOINCREMENT column: the rows
    in insertion order, each with its rowid, and the entry of
    sqlite_sequence (the largest rowid ever used). *)
Record table (R : Type) : Type :=
  MkTable { rows : list (Z * R); sequence : Z }.
#[global] Arguments MkTable {R} rows sequence.
#[global] Arguments rows {R} t.
#[global] Arguments sequence {R} t.

Definition empty {R} : table R := MkTable [] 0.

Definition max_rowid {R} (l : list (Z * R)) : Z :=
  foldr (fun r acc => Z.max r.1 acc) 0 l.

Definition next_rowid {R} (t : table R) : Z :=
  Z.max (sequence t) (max_rowid (rows t)) + 1.

(** INSERT without an explicit id; the second component is
    [cursor.lastrowid]. *)
Definition insert {R} (t : table R) (r : R) : table R * Z :=
  let id := next_rowid t in
  (MkTable (rows t ++ [(id, r)]) id, id).

(** Binding a Python int to a statement parameter. *)
Definition INT64_MIN : Z := - 2 ^ 63.
Definition INT64_MAX : Z := 2 ^ 63 - 1.

Definition bind_int (v : Z) : Py.result Z :=
  if (INT64_MIN <=? v) && (v <=? INT64_MAX) then Py.Ok v
  else Py.Raise (Py.MkExn Py.OverflowError
                   "Python int too large to convert to SQLite INTEGER").

End Sqlite.

Definition bytes : Type := list Byte.byte.

(** Rows of [queries], [case_details] and [cause_lists]; the id column is
    the rowid kept by the table. *)
Record query_row : Type := MkQuery {
  q_case_type : string;
  q_case_number : string;
  q_year : Z;
  q_court_type : string;
  q_timestamp : string;          (* DEFAULT CURRENT_TIMESTAMP *)
  q_raw_response : string
}.

Record case_detail_row : Type := MkCaseDetail {
  cd_query_id : Z;               (* REFERENCES queries (id) *)
  cd_parties : string;
  cd_filing_date : string;
  cd_next_hearing_date : string;
  cd_case_status : string;
  cd_judgment_url : option string
}.

Record cause_list_row : Type := MkCauseListRow {
  cl_court_type : string;
  cl_list_date : string;
  cl_pdf_path : string;
  cl_raw_data : string;
  cl_created_at : string         (* DEFAULT CURRENT_TIMESTAMP *)
}.

Record store : Type := MkStore {
  queries : Sqlite.table query_row;
  case_details : Sqlite.table case_detail_row;
  cause_lists : Sqlite.table cause_list_row;
  files : gmap string bytes
}.

(** [init_db()] on a fresh working directory. *)
Definition init_db : store :=
  MkStore Sqlite.empty Sqlite.empty Sqlite.empty ∅.

Fixpoint has_nul (s : string) : bool :=
  match s with
  | String c s' => (Py.code c =? 0) || has_nul s'
  | EmptyString => false
  end.

(* ===================================================================== *)
(** * Requests and responses                                             *)
(* ===================================================================== *)

Inductive method : Type := GET | HEAD | POST | PUT | DELETE | OPTIONS.

(** [request.form]: the submitted fields in order; [get] returns the first
    value of a key. *)
Definition form : Type := list (string * string).

Fixpoint form_get (f : form) (key : string) : option string :=
  match f with
  | (k, v) :: f' => if String.eqb k key then Some v else form_get f' key
  | [] => None
  end.

Definition form_get_default (f : form) (key default : string) : string :=
  match form_get f key with
  | Some v => v
  | None => default
  end.

Inductive json : Type :=
| JNull
| JBool (b : bool)
| JStr (s : string).

Inductive body : Type :=
| Json (members : list (string * json))              (* jsonify(dict) *)
| Template (name : string)                           (* render_template(name) *)
| Attachment (data : bytes) (download_name mimetype : string)  (* send_file(...) *)
| ErrorPage                                          (* the page of an HTTP error *)
| NoContent                                          (* the automatic OPTIONS answer *)
| StaticFile (data : bytes).                         (* a file of the static folder *)

Record response : Type := MkResponse { content : body; status : Z }.

(* ===================================================================== *)
(** * The environment of a request                                       *)
(* ===================================================================== *)

(** The reportlab canvas calls of the fallback renderer. *)
Inductive canvas_op : Type :=
| drawString (x y : Z) (text : string)
| showPage
| save.

Record env : Type := MkEnv {
  platform : Py.platform;
  today : Datetime.date;                           (* date.today() *)
  current_timestamp : string;                      (* SQLite CURRENT_TIMESTAMP *)
  session_get : string -> Py.result string;        (* session.get(url).text *)
  beautiful_soup : string -> Py.result unit;       (* BeautifulSoup(text, 'html.parser') *)
  pdfkit_from_string : string -> Py.result bytes;  (* pdfkit.from_string(html, False) *)
  reportlab_canvas : list canvas_op -> Py.result bytes;
    (* the import of reportlab, the canvas calls and buffer.getvalue() *)
  render_template : string -> Py.result unit;
    (* render_template(name): the template is found and rendered *)
  os_write : string -> Py.result unit;
    (* os.makedirs(os.path.dirname(path), exist_ok=True) and
       open(path, 'wb'), as the operating system answers them for a path
       without NUL: an error for a name that is too long, for a path
       through a regular file, for the path of a directory, ... *)
  send_file : string -> Py.result unit;
    (* send_file(BytesIO(pdf_content), download_name=name,
       as_attachment=True, mimetype='application/pdf'): werkzeug raises
       ValueError for a header value with a line feed or a carriage
       return *)
  flask_answer : method -> string -> response
    (* what Flask answers itself to a request line that calls no view of
       main.py: a file of the static folder (the rule
       /static/<path:filename>, which Flask(__name__) adds), 404, 405, a
       redirect *)
}.

(** [os.makedirs(os.path.dirname(path), exist_ok=True)] followed by
    [open(path, 'wb')] and [f.write(content)].  Python refuses a path
    with an embedded NUL before it asks the operating system. *)
Definition write_file (e : env) (st : store) (path : string) (content : bytes)
  : Py.result store :=
  if has_nul path then Py.Raise (Py.MkExn Py.ValueError "embedded null byte")
  else
    _ <- os_write e path ;;
    Py.Ok (MkStore (queries st) (case_details st) (cause_lists st)
                   (<[path := content]> (files st))).

(* ===================================================================== *)
(** * class CourtScraper                                                 *)
(* ===================================================================== *)

(** The dictionary [mock_data] of the two case scrapers. *)
Record case_record : Type := MkCase {
  parties : string;
  filing_date : string;
  next_hearing_date : string;
  case_status : string;
  judgment_url : option string
}.

(** What a case scraper returns: [(mock_data, response.text)], or
    [({'error': str(e)}, None)]. *)
Inductive scrape_result : Type :=
| Scraped (case_data : case_record) (raw_response : string)
| ScrapeError (error : string).

(** An entry of [cause_list_data['cases']]. *)
Record cause_entry : Type := MkEntry {
  entry_case_number : string;
  entry_case_type : string;
  entry_parties : string
}.

(** The dictionary [cause_list_data]. *)
Record cause_list : Type := MkCauseList {
  court : string;
  date : string;
  cases : list cause_entry
}.

(** What [CourtScraper.download_cause_list] returns:
    [(cause_list_data, pdf_content, response.text)], or
    [({'error': str(e)}, None, None)]. *)
Inductive download_result : Type :=
| Downloaded (cause_list_data : cause_list) (pdf_content : bytes) (raw_response : string)
| DownloadError (error : string).

Module CourtScraper.

Definition nl : string := String (Py.chr 10) "".

Definition join (l : list string) : string := foldr String.append "" l.

Definition scrape_high_court (e : env) (case_type case_number : string) (year : Z)
  : scrape_result :=
  match
    (let base_url := "https://hcservices.ecourts.gov.in/hcservices/main.php" in
     response <- session_get e base_url ;;
     soup <- beautiful_soup e response ;;
     hearing <- Datetime.add_days (today e) 7 ;;
     let mock_data :=
       {| parties := "Petitioner: John Doe vs Respondent: State of Example";
          filing_date := "2023-05-15";
          next_hearing_date := Datetime.strftime_Y_m_d (platform e) hearing;
          case_status := "Pending";
          judgment_url := None |} in
     Py.Ok (mock_data, response))
  with
  | Py.Ok (mock_data, text) => Scraped mock_data text
  | Py.Raise ex => ScrapeError (Py.exn_str ex)
  end.

Definition scrape_district_court (e : env) (case_type case_number : string) (year : Z)
  : scrape_result :=
  match
    (let base_url := "https://services.ecourts.gov.in/ecourtindia_v6/" in
     response <- session_get e base_url ;;
     soup <- beautiful_soup e response ;;
     hearing <- Datetime.add_days (today e) 5 ;;
     let mock_data :=
       {| parties := "Applicant: Jane Smith vs Opponent: ABC Corporation";
          filing_date := "2023-06-20";
          next_hearing_date := Datetime.strftime_Y_m_d (platform e) hearing;
          case_status := "Hearing";
          judgment_url := None |} in
     Py.Ok (mock_data, response))
  with
  | Py.Ok (mock_data, text) => Scraped mock_data text
  | Py.Raise ex => ScrapeError (Py.exn_str ex)
  end.

(** The f-string [html_content]. *)
Definition html_row (case : cause_entry) : string :=
  "<tr><td>" +:+ entry_case_number case +:+ "</td><td>" +:+ entry_case_type case
  +:+ "</td><td>" +:+ entry_parties case +:+ "</td></tr>".

Definition html_content (cause_list_data : cause_list) : string :=
  join
    [ nl;
      "        <html>"; nl;
      "        <head>"; nl;
      "            <title>Cause List - "; court cause_list_data; "</title>"; nl;
      "            <style>"; nl;
      "                body { font-family: Arial, sans-serif; margin: 40px; }"; nl;
      "                h1 { color: #2c3e50; text-align: center; }"; nl;
      "                table { width: 100%; border-collapse: collapse; margin-top: 20px; }"; nl;
      "                th, td { border: 1px solid #ddd; padding: 12px; text-align: left; }"; nl;
      "                th { background-color: #f2f2f2; }"; nl;
      "            </style>"; nl;
      "        </head>"; nl;
      "        <body>"; nl;
      "            <h1>"; court cause_list_data; " - Cause List</h1>"; nl;
      "            <h2>Date: "; date cause_list_data; "</h2>"; nl;
      "            <table>"; nl;
      "                <tr>"; nl;
      "                    <th>Case Number</th>"; nl;
      "                    <th>Case Type</th>"; nl;
      "                    <th>Parties</th>"; nl;
      "                </tr>"; nl;
      "                "; join (map html_row (cases cause_list_data)); nl;
      "            </table>"; nl;
      "        </body>"; nl;
      "        </html>"; nl;
      "        " ].

(** The loop of the fallback renderer, from vertical position [y]. *)
Fixpoint draw_cases (l : list cause_entry) (y_position : Z) : list canvas_op :=
  match l with
  | case :: l' =>
      [ drawString 100 y_position
          (entry_case_number case +:+ " - " +:+ entry_case_type case);
        drawString 100 (y_position - 15) ("Parties: " +:+ entry_parties case) ]
      ++ (let y_position := y_position - 40 in
          if y_position <? 100 then showPage :: draw_cases l' 750
          else draw_cases l' y_position)
  | [] => []
  end.

Definition fallback_ops (cause_list_data : cause_list) : list canvas_op :=
  [ drawString 100 750 (court cause_list_data +:+ " - Cause List");
    drawString 100 730 ("Date: " +:+ date cause_list_data) ]
  ++ draw_cases (cases cause_list_data) 700
  ++ [ save ].

(** The bare [except:] catches whatever pdfkit raises. *)
Definition generate_cause_list_pdf (e : env) (cause_list_data : cause_list)
  : Py.result bytes :=
  match pdfkit_from_string e (html_content cause_list_data) with
  | Py.Ok pdf => Py.Ok pdf
  | Py.Raise _ => reportlab_canvas e (fallback_ops cause_list_data)
  end.

Definition mock_cases : list cause_entry :=
  [ MkEntry "CR123/2023" "Criminal" "State vs John Doe";
    MkEntry "CV456/2023" "Civil" "Smith vs Jones";
    MkEntry "FA789/2023" "Family" "Doe vs Doe" ].

(** The default of [target_date] is computed before the [try]. *)
Definition download_cause_list (e : env) (court_type : string)
    (target_date : option Datetime.date) : Py.result download_result :=
  target_date <- match target_date with
                 | None => Datetime.add_days (today e) 1
                 | Some d => Py.Ok d
                 end ;;
  Py.Ok
    match
      (let url :=
         if String.eqb court_type "high_court"
         then "https://hcservices.ecourts.gov.in/hcservices/main.php"
         else "https://services.ecourts.gov.in/ecourtindia_v6/" in
       response <- session_get e url ;;
       let cause_list_data :=
         {| court := Py.title (platform e) (Py.replace_char "_" " " court_type)
                     +:+ " Court";
            date := Datetime.strftime_Y_m_d (platform e) target_date;
            cases := mock_cases |} in
       pdf_content <- generate_cause_list_pdf e cause_list_data ;;
       Py.Ok (cause_list_data, pdf_content, response))
    with
    | Py.Ok (cause_list_data, pdf_content, text) =>
        Downloaded cause_list_data pdf_content text
    | Py.Raise ex => DownloadError (Py.exn_str ex)
    end.

End CourtScraper.

(* ===================================================================== *)
(** * The Flask application                                              *)
(* ===================================================================== *)

Definition jsonify (members : list (string * json)) : response :=
  MkResponse (Json members) 200.

Definition jsonify_error (message : string) (code : Z) : response :=
  MkResponse (Json [("error", JStr message)]) code.

Definition json_of_option (o : option string) : json :=
  match o with
  | Some s => JStr s
  | None => JNull
  end.

Definition jsonify_case (case_data : case_record) : response :=
  jsonify [ ("parties", JStr (parties case_data));
            ("filing_date", JStr (filing_date case_data));
            ("next_hearing_date", JStr (next_hearing_date case_data));
            ("case_status", JStr (case_status case_data));
            ("judgment_url", json_of_option (judgment_url case_data)) ].

(** The string held by a form value that passed its truthiness test. *)
Definition str_of (o : option string) : string := default "" o.

(** A view body computes a response and a new store, or raises; Flask
    answers an exception with status 500.  [run] is used where the
    statements that can raise come before the first write of the view, so
    that the store is then the one the request found; the one call that
    can raise after a write is [send_file]. *)
Definition view : Type := env -> form -> store -> response * store.

Definition run (st : store) (r : Py.result (response * store)) : response * store :=
  match r with
  | Py.Ok x => x
  | Py.Raise _ => (MkResponse ErrorPage 500, st)
  end.

Definition index : view := fun e f st =>
  run st
    (_ <- render_template e "index.html" ;;
     Py.Ok (MkResponse (Template "index.html") 200, st)).

Definition search_case : view := fun e f st =>
  let case_type := form_get f "case_type" in
  let case_number := form_get f "case_number" in
  let year := form_get f "year" in
  let court_type := form_get_default f "court_type" "district_court" in
  if negb (forallb Py.truthy [case_type; case_number; year]) then
    (jsonify_error "All fields are required" 400, st)
  else
    let case_type := str_of case_type in
    let case_number := str_of case_number in
    match Py.int (platform e) (str_of year) with
    | Py.Raise (Py.MkExn Py.ValueError _) =>
        (jsonify_error "Year must be a number" 400, st)
    | Py.Raise ex => run st (Py.Raise ex)
    | Py.Ok year =>
        let scraped :=
          if String.eqb court_type "high_court"
          then CourtScraper.scrape_high_court e case_type case_number year
          else CourtScraper.scrape_district_court e case_type case_number year in
        match scraped with
        | ScrapeError error => (jsonify_error error 500, st)
        | Scraped case_data raw_response =>
            run st
              (year_param <- Sqlite.bind_int year ;;
               let '(queries', query_id) :=
                 Sqlite.insert (queries st)
                   (MkQuery case_type case_number year_param court_type
                            (current_timestamp e) raw_response) in
               let '(case_details', _) :=
                 Sqlite.insert (case_details st)
                   (MkCaseDetail query_id (parties case_data) (filing_date case_data)
                                 (next_hearing_date case_data) (case_status case_data)
                                 (judgment_url case_data)) in
               Py.Ok (jsonify_case case_data,
                      MkStore queries' case_details' (cause_lists st) (files st)))
        end
    end.

(** The date block of the two cause-list views (lines 258-264 and
    308-314): the parsed field, tomorrow when the field is absent or empty,
    or the 400 response. *)
Definition target_date_of (e : env) (target_date : option string)
  : Py.result (response + Datetime.date) :=
  if Py.truthy target_date then
    match Datetime.strptime_Y_m_d (platform e) (str_of target_date) with
    | Py.Ok d => Py.Ok (inr d)
    | Py.Raise (Py.MkExn Py.ValueError _) =>
        Py.Ok (inl (jsonify_error "Invalid date format. Use YYYY-MM-DD" 400))
    | Py.Raise ex => Py.Raise ex
    end
  else
    d <- Datetime.add_days (today e) 1 ;;
    Py.Ok (inr d).

(** [download_cause_list] from the call of the scraper on (lines 266-297),
    for the court type and the target date of the request.  [send_file]
    is called after the file is written and the INSERT committed: when it
    raises, Flask answers 500 and the file and the row stay. *)
Definition download_cause_list_on (e : env) (court_type : string)
    (target_date : Datetime.date) (st : store) : Py.result (response * store) :=
  downloaded <- CourtScraper.download_cause_list e court_type (Some target_date) ;;
  match downloaded with
  | DownloadError error => Py.Ok (jsonify_error error 500, st)
  | Downloaded cause_list_data pdf_content raw_response =>
      let pdf_filename :=
        "cause_list_" +:+ court_type +:+ "_"
        +:+ Datetime.strftime_Ymd (platform e) target_date +:+ ".pdf" in
      let pdf_path := "static/pdfs/" +:+ pdf_filename in
      st1 <- write_file e st pdf_path pdf_content ;;
      let '(cause_lists', _) :=
        Sqlite.insert (cause_lists st1)
          (MkCauseListRow court_type (Datetime.strftime_Y_m_d (platform e) target_date)
                          pdf_path raw_response (current_timestamp e)) in
      Py.Ok (match send_file e pdf_filename with
             | Py.Ok _ =>
                 MkResponse (Attachment pdf_content pdf_filename "application/pdf") 200
             | Py.Raise _ => MkResponse ErrorPage 500
             end,
             MkStore (queries st1) (case_details st1) cause_lists' (files st1))
  end.

Definition download_cause_list : view := fun e f st =>
  let court_type := form_get_default f "court_type" "district_court" in
  let target_date := form_get f "date" in
  run st
    (target <- target_date_of e target_date ;;
     match target with
     | inl bad_request => Py.Ok (bad_request, st)
     | inr target_date => download_cause_list_on e court_type target_date st
     end).

(** [check_case_in_cause_list] from the call of the scraper on (lines
    316-329). *)
Definition check_case_in_cause_list_on (e : env) (court_type case_number : string)
    (target_date : Datetime.date) (st : store) : Py.result (response * store) :=
  downloaded <- CourtScraper.download_cause_list e court_type (Some target_date) ;;
  match downloaded with
  | DownloadError error => Py.Ok (jsonify_error error 500, st)
  | Downloaded cause_list_data _ _ =>
      let found :=
        existsb (fun case => String.eqb (entry_case_number case) case_number)
                (cases cause_list_data) in
      Py.Ok (jsonify [ ("found", JBool found);
                       ("date", JStr (Datetime.strftime_Y_m_d (platform e) target_date));
                       ("court", JStr court_type);
                       ("case_number", JStr case_number) ],
             st)
  end.

Definition check_case_in_cause_list : view := fun e f st =>
  let case_number := form_get f "case_number" in
  let court_type := form_get_default f "court_type" "district_court" in
  let target_date := form_get f "date" in
  if negb (Py.truthy case_number) then
    (jsonify_error "Case number is required" 400, st)
  else
    let case_number := str_of case_number in
    run st
      (target <- target_date_of e target_date ;;
       match target with
       | inl bad_request => Py.Ok (bad_request, st)
       | inr target_date =>
           check_case_in_cause_list_on e court_type case_number target_date st
       end).

(** ** The routes declared with [@app.route]

    The methods of a rule are the declared ones, HEAD where GET is
    declared, and OPTIONS, which Flask answers itself.  A request line
    that matches none of these rules with one of its methods calls no
    view of main.py. *)

Inductive endpoint : Type :=
| ep_index
| ep_search_case
| ep_download_cause_list
| ep_check_case_in_cause_list.

Record rule : Type := MkRule {
  rule_path : string;
  rule_methods : list method;
  rule_endpoint : endpoint
}.

(** The four rules of main.py, in the order of their declaration. *)
Definition declared_rules : list rule :=
  [ MkRule "/" [GET; HEAD; OPTIONS] ep_index;
    MkRule "/search_case" [POST; OPTIONS] ep_search_case;
    MkRule "/download_cause_list" [POST; OPTIONS] ep_download_cause_list;
    MkRule "/check_case_in_cause_list" [POST; OPTIONS] ep_check_case_in_cause_list ].

Definition view_function (ep : endpoint) : view :=
  match ep with
  | ep_index => index
  | ep_search_case => search_case
  | ep_download_cause_list => download_cause_list
  | ep_check_case_in_cause_list => check_case_in_cause_list
  end.

Definition method_eqb (a b : method) : bool :=
  match a, b with
  | GET, GET | HEAD, HEAD | POST, POST | PUT, PUT
  | DELETE, DELETE | OPTIONS, OPTIONS => true
  | _, _ => false
  end.

Inductive routed : Type :=
| to_view (ep : endpoint)
| default_options (allow : list method)
| to_flask.

(** URL matching against the declared rules. *)
Definition dispatch (m : method) (path : string) : routed :=
  match find (fun r => String.eqb (rule_path r) path) declared_rules with
  | None => to_flask
  | Some r =>
      if existsb (method_eqb m) (rule_methods r) then
        if method_eqb m OPTIONS then default_options (rule_methods r)
        else to_view (rule_endpoint r)
      else to_flask
  end.

Record request : Type := MkRequest {
  req_method : method;
  req_path : string;
  req_form : form
}.

(** One request against the application. *)
Definition app (e : env) (rq : request) (st : store) : response * store :=
  match dispatch (req_method rq) (req_path rq) with
  | to_view ep => view_function ep e (req_form rq) st
  | default_options _ => (MkResponse NoContent 200, st)
  | to_flask => (flask_answer e (req_method rq) (req_path rq), st)
  end.

(** ** Sample data for the closed examples *)

Definition sample_pdf : bytes := [Byte.x25; Byte.x50; Byte.x44; Byte.x46].

(** A platform whose C library does not pad %Y, as glibc.  The examples
    use strings of ASCII characters only, for which the Unicode fields are
    not consulted. *)
Definition glibc : Py.platform :=
  {| Py.pads_year := false;
     Py.unicode_int := fun _ => None;
     Py.unicode_strptime := fun _ => None;
     Py.unicode_title := fun s => s |}.

Fixpoint has_newline (s : string) : bool :=
  match s with
  | String c s' => (Py.code c =? 10) || (Py.code c =? 13) || has_newline s'
  | EmptyString => false
  end.

(** werkzeug's check of a header value. *)
Definition werkzeug_send_file (download_name : string) : Py.result unit :=
  if has_newline download_name then
    Py.Raise (Py.MkExn Py.ValueError "Header values must not contain newline characters.")
  else Py.Ok tt.

Definition sample_env : env :=
  {| platform := glibc;
     today := Datetime.MkDate 2023 5 15;
     current_timestamp := "2023-05-15 10:00:00";
     session_get := fun _ => Py.Ok "<html></html>";
     beautiful_soup := fun _ => Py.Ok tt;
     pdfkit_from_string := fun _ => Py.Ok sample_pdf;
     reportlab_canvas := fun _ => Py.Ok sample_pdf;
     render_template := fun _ => Py.Ok tt;
     os_write := fun _ => Py.Ok tt;
     send_file := werkzeug_send_file;
     flask_answer := fun _ _ => MkResponse ErrorPage 404 |}.

(** The sample environment an hour later, with another rendering of the
    PDF. *)
Definition later_env : env :=
  {| platform := glibc;
     today := Datetime.MkDate 2023 5 15;
     current_timestamp := "2023-05-15 11:00:00";
     session_get := fun _ => Py.Ok "<html></html>";
     beautiful_soup := fun _ => Py.Ok tt;
     pdfkit_from_string := fun _ => Py.Ok [Byte.x25];
     reportlab_canvas := fun _ => Py.Ok sample_pdf;
     render_template := fun _ => Py.Ok tt;
     os_write := fun _ => Py.Ok tt;
     send_file := werkzeug_send_file;
     flask_answer := fun _ _ => MkResponse ErrorPage 404 |}.

Definition sample_lookup : form :=
  [ ("case_type", "CR"); ("case_number", "123"); ("year", "2023");
    ("court_type", "high_court") ].


(** ** Notions used in the statements *)

(** The rows a request found are still there, unchanged and in place. *)
Definition append_only (st st' : store) : Prop :=
  Sqlite.rows (queries st) `prefix_of` Sqlite.rows (queries st')
  /\ Sqlite.rows (case_details st) `prefix_of` Sqlite.rows (case_details st')
  /\ Sqlite.rows (cause_lists st) `prefix_of` Sqlite.rows (cause_lists st').

(** The test [all([case_type, case_number, year])] of [search_case]. *)
Definition lookup_fields_present (f : form) : bool :=
  forallb Py.truthy [form_get f "case_type"; form_get f "case_number"; form_get f "year"].

Definition court_type_of (f : form) : string :=
  form_get_default f "court_type" "district_court".

(** The scrape of a lookup, as [search_case] calls it. *)
Definition scrape (e : env) (court_type case_type case_number : string) (year : Z)
  : scrape_result :=
  if String.eqb court_type "high_court"
  then CourtScraper.scrape_high_court e case_type case_number year
  else CourtScraper.scrape_district_court e case_type case_number year.

Definition in_int64 (y : Z) : bool :=
  (Sqlite.INT64_MIN <=? y) && (y <=? Sqlite.INT64_MAX).

(** The two rows of a lookup that goes through. *)
Definition new_query (e : env) (f : form) (y : Z) (raw : string) : query_row :=
  MkQuery (str_of (form_get f "case_type")) (str_of (form_get f "case_number")) y
          (court_type_of f) (current_timestamp e) raw.

Definition new_case_detail (query_id : Z) (case_data : case_record) : case_detail_row :=
  MkCaseDetail query_id (parties case_data) (filing_date case_data)
               (next_hearing_date case_data) (case_status case_data)
               (judgment_url case_data).

(** The name and the path of the PDF of a cause list. *)
Definition pdf_filename_of (p : Py.platform) (court_type : string)
    (d : Datetime.date) : string :=
  "cause_list_" +:+ court_type +:+ "_" +:+ Datetime.strftime_Ymd p d +:+ ".pdf".

Definition pdf_path_of (p : Py.platform) (court_type : string)
    (d : Datetime.date) : string :=
  "static/pdfs/" +:+ pdf_filename_of p court_type d.

Definition new_cause_list_row (e : env) (court_type : string) (d : Datetime.date)
    (raw : string) : cause_list_row :=
  MkCauseListRow court_type (Datetime.strftime_Y_m_d (platform e) d)
                 (pdf_path_of (platform e) court_type d)
                 raw (current_timestamp e).

(** The answer of [download_cause_list] once the file is written and the
    row inserted: the attachment, or the error page when [send_file]
    raises. *)
Definition download_answer (e : env) (court_type : string) (d : Datetime.date)
    (pdf : bytes) : response :=
  match send_file e (pdf_filename_of (platform e) court_type d) with
  | Py.Ok _ =>
      MkResponse (Attachment pdf (pdf_filename_of (platform e) court_type d)
                             "application/pdf") 200
  | Py.Raise _ => MkResponse ErrorPage 500
  end.

(** The store after the file of a cause list is written and its row
    inserted. *)
Definition with_cause_list (e : env) (court_type : string) (d : Datetime.date)
    (pdf : bytes) (raw : string) (st : store) : store :=
  MkStore (queries st) (case_details st)
          (Sqlite.insert (cause_lists st) (new_cause_list_row e court_type d raw)).1
          (<[pdf_path_of (platform e) court_type d := pdf]> (files st)).

Definition invalid_date : response :=
  jsonify_error "Invalid date format. Use YYYY-MM-DD" 400.

(** The answer of [check_case_in_cause_list] when it reaches its end. *)
Definition check_answer (p : Py.platform) (found : bool) (d : Datetime.date)
    (court_type case_number : string) : response :=
  jsonify [ ("found", JBool found);
            ("date", JStr (Datetime.strftime_Y_m_d p d));
            ("court", JStr court_type);
            ("case_number", JStr case_number) ].

(** The shapes YYYY-MM-DD and YYYYMMDD: decimal digits, and hyphens in
    the first. *)
Definition is_YYYY_MM_DD (s : string) : bool :=
  match s with
  | String y1 (String y2 (String y3 (String y4 (String "-"
      (String m1 (String m2 (String "-" (String d1 (String d2 ""))))))))) =>
      forallb Py.isdigit [y1; y2; y3; y4; m1; m2; d1; d2]
  | _ => false
  end.

Definition is_YYYYMMDD (s : string) : bool :=
  match s with
  | String y1 (String y2 (String y3 (String y4
      (String m1 (String m2 (String d1 (String d2 ""))))))) =>
      forallb Py.isdigit [y1; y2; y3; y4; m1; m2; d1; d2]
  | _ => false
  end.

Fixpoint all_digits (s : string) : bool :=
  match s with
  | String c s' => Py.isdigit c && all_digits s'
  | EmptyString => true
  end.

(** A year that [strftime] writes with four digits on the platform. *)
Definition four_digit_year (p : Py.platform) (d : Datetime.date) : Prop :=
  Py.pads_year p = true \/ 1000 <= Datetime.year d.

(** A view that answers every supplied date string which is not in the
    format YYYY-MM-DD with the 400 response, the store unchanged. *)
Definition rejects_malformed_dates (v : view) : Prop :=
  forall e f st s,
    form_get f "date" = Some s ->
    is_YYYY_MM_DD s = false ->
    v e f st = (invalid_date, st).

(** The format as [strptime] reads it in a string of ASCII characters:
    four digits, a hyphen, a month written 1..9, 01..09 or 10..12, a
    hyphen, and a day written 1..9, 01..09, 10..31 or as a space and
    1..9. *)
Definition is_month_text (s : string) : bool :=
  match s with
  | String a "" => Datetime.in_range "1" "9" a
  | String a (String b "") =>
      (Ascii.eqb "0" a && Datetime.in_range "1" "9" b)
      || (Ascii.eqb "1" a && Datetime.in_range "0" "2" b)
  | _ => false
  end.

Definition is_day_text (s : string) : bool :=
  match s with
  | String a "" => Datetime.in_range "1" "9" a
  | String a (String b "") =>
      (Ascii.eqb "0" a && Datetime.in_range "1" "9" b)
      || (Datetime.in_range "1" "2" a && Py.isdigit b)
      || (Ascii.eqb "3" a && Datetime.in_range "0" "1" b)
      || (Ascii.eqb " " a && Datetime.in_range "1" "9" b)
  | _ => false
  end.

(** The text before the first hyphen, and the text after it. *)
Fixpoint split_hyphen (s : string) : option (string * string) :=
  match s with
  | String c s' =>
      if Ascii.eqb c "-" then Some ("", s')
      else
        match split_hyphen s' with
        | Some (a, b) => Some (String c a, b)
        | None => None
        end
  | EmptyString => None
  end.

Definition is_Y_m_d (s : string) : bool :=
  match s with
  | String y1 (String y2 (String y3 (String y4 (String "-" md)))) =>
      forallb Py.isdigit [y1; y2; y3; y4]
      && match split_hyphen md with
         | Some (m, d) => is_month_text m && is_day_text d
         | None => false
         end
  | _ => false
  end.

(** One route of the application serving every request. *)
Definition single_endpoint : Prop :=
  exists ep, forall m path ep', dispatch m path = to_view ep' -> ep' = ep.

(** The request lines that reach a view function. *)
Definition handled : list (method * string * endpoint) :=
  [ (GET, "/", ep_index);
    (HEAD, "/", ep_index);
    (POST, "/search_case", ep_search_case);
    (POST, "/download_cause_list", ep_download_cause_list);
    (POST, "/check_case_in_cause_list", ep_check_case_in_cause_list) ].

(** ** Notions used in the further properties *)

Definition rowids {R} (t : Sqlite.table R) : list Z := (Sqlite.rows t).*1.

(** The rowids are 1, 2, ..., n in insertion order, and sqlite_sequence
    holds n. *)
Definition numbered {R} (t : Sqlite.table R) : Prop :=
  rowids t = seqZ 1 (Z.of_nat (length (Sqlite.rows t)))
  /\ Sqlite.sequence t = Z.of_nat (length (Sqlite.rows t)).

(** The column query_id of [case_details], in insertion order. *)
Definition query_ids (st : store) : list Z :=
  map (fun r => cd_query_id r.2) (Sqlite.rows (case_details st)).

(** The numbering of a store that started empty: rowids 1, 2, ... in every
    table, and the k-th case detail carrying the rowid of the k-th query. *)
Definition numbered_store (st : store) : Prop :=
  numbered (queries st) /\ numbered (case_details st) /\ numbered (cause_lists st)
  /\ query_ids st = rowids (queries st).

(** Rowids are keys, and every query_id is the rowid of a query. *)
Definition keyed (st : store) : Prop :=
  NoDup (rowids (queries st))
  /\ NoDup (rowids (case_details st))
  /\ NoDup (rowids (cause_lists st))
  /\ (forall i, i ∈ query_ids st -> i ∈ rowids (queries st)).

(** The store after a sequence of requests, each in its own environment. *)
Definition serve (l : list (env * request)) (st : store) : store :=
  foldl (fun st er => (app er.1 er.2 st).2) st l.

Definition endpoint_eqb (a b : endpoint) : bool :=
  match a, b with
  | ep_index, ep_index | ep_search_case, ep_search_case
  | ep_download_cause_list, ep_download_cause_list
  | ep_check_case_in_cause_list, ep_check_case_in_cause_list => true
  | _, _ => false
  end.

(** Whether a request reaches the view of [ep]. *)
Definition reaches (ep : endpoint) (rq : request) : bool :=
  match dispatch (req_method rq) (req_path rq) with
  | to_view ep' => endpoint_eqb ep ep'
  | _ => false
  end.

Definition one_if (b : bool) : nat := if b then 1%nat else 0%nat.

(** Of a sequence of requests served from [st]: how many reach the view
    of [ep], and how many of these are answered with status 200. *)
Fixpoint requests_of (ep : endpoint) (l : list (env * request)) : nat :=
  match l with
  | er :: l' => (one_if (reaches ep er.2) + requests_of ep l')%nat
  | [] => 0%nat
  end.

Fixpoint answered_200 (ep : endpoint) (l : list (env * request)) (st : store) : nat :=
  match l with
  | er :: l' =>
      let answer := app er.1 er.2 st in
      Nat.add (one_if (reaches ep er.2 && (status answer.1 =? 200)))
              (answered_200 ep l' answer.2)
  | [] => 0%nat
  end.

(** A database that did not start empty: rows were deleted by hand, and
    sqlite_sequence is ahead of the rowids. *)
Definition sample_store : store :=
  MkStore
    (Sqlite.MkTable
       [ (2, MkQuery "CR" "7" 2020 "high_court" "2020-01-01 00:00:00" "");
         (5, MkQuery "CV" "8" 2021 "district_court" "2021-01-01 00:00:00" "") ] 9)
    (Sqlite.MkTable
       [ (4, MkCaseDetail 5 "A vs B" "2021-01-01" "2021-02-01" "Pending" None) ] 4)
    Sqlite.empty ∅.

(** A date that the constructor [date(y, m, d)] accepts. *)
Definition valid_date (d : Datetime.date) : Prop :=
  Datetime.make_date (Datetime.year d) (Datetime.month d) (Datetime.day d) = Py.Ok d.

(** The form [f] resubmitted with the date field [s]. *)
Definition with_date (s : string) (f : form) : form := ("date", s) :: f.

(** The strings a list of canvas calls draws, in order, and the number of
    its page breaks. *)
Fixpoint texts (ops : list canvas_op) : list string :=
  match ops with
  | drawString _ _ text :: ops' => text :: texts ops'
  | _ :: ops' => texts ops'
  | [] => []
  end.

Fixpoint page_breaks (ops : list canvas_op) : Z :=
  match ops with
  | showPage :: ops' => 1 + page_breaks ops'
  | _ :: ops' => page_breaks ops'
  | [] => 0
  end.

(** The two lines of a case in the fallback PDF. *)
Definition case_lines (case : cause_entry) : list string :=
  [ entry_case_number case +:+ " - " +:+ entry_case_type case;
    "Parties: " +:+ entry_parties case ].

(* ===================================================================== *)
(** * Library facts                                                      *)
(* ===================================================================== *)

Lemma long_from_string_raises_ValueError s ex :
  Py.long_from_string s = Py.Raise ex -> Py.exn_cls ex = Py.ValueError.
Proof.
  unfold Py.long_from_string.
  destruct (match Py.skip_spaces s with
            | String "+" r => (1, r)
            | String "-" r => (-1, r)
            | _ => (1, Py.skip_spaces s)
            end) as [sign s2].
  assert (Hscan :
    match Py.scan_digits s2 false 0 0 with
    | Some (v, n, rest) =>
        if n =? 0 then Py.Raise Py.int_literal_error
        else if negb (String.eqb (Py.skip_spaces rest) "")
             then Py.Raise Py.int_literal_error
             else if Py.max_str_digits <? n
                  then Py.Raise (Py.MkExn Py.ValueError
                         "Exceeds the limit (4300 digits) for integer string conversion")
                  else Py.Ok (sign * v)
    | None => Py.Raise Py.int_literal_error
    end = Py.Raise ex -> Py.exn_cls ex = Py.ValueError).
  { destruct (Py.scan_digits s2 false 0 0) as [[[v n] rest]|];
      repeat case_match; intros [= <-]; reflexivity. }
  destruct s2 as [|c s2']; [exact Hscan|].
  destruct (Ascii.eqb_spec c "_") as [->|Hc].
  - intros [= <-]. reflexivity.
  - destruct c as [[] [] [] [] [] [] [] []]; try exact Hscan. congruence.
Qed.

(** [int] of a string raises nothing but ValueError. *)
Lemma int_raises_ValueError p s ex :
  Py.int p s = Py.Raise ex -> Py.exn_cls ex = Py.ValueError.
Proof.
  unfold Py.int. destruct (Py.is_ascii s).
  - apply long_from_string_raises_ValueError.
  - destruct (Py.unicode_int p s); [discriminate|]. by intros [= <-].
Qed.

Lemma code_chr k : 0 <= k < 256 -> Py.code (Py.chr k) = k.
Proof.
  intros H. unfold Py.code, Py.chr. rewrite nat_ascii_embedding; lia.
Qed.

Lemma isdigit_chr n : Py.isdigit (Py.chr (48 + n mod 10)) = true.
Proof.
  pose proof (Z.mod_pos_bound n 10 ltac:(lia)) as Hn.
  unfold Py.isdigit. rewrite code_chr by lia. lia.
Qed.

Lemma zpad_2 n :
  Py.zpad 2 n
  = String (Py.chr (48 + (n / 10) mod 10)) (String (Py.chr (48 + n mod 10)) "").
Proof. reflexivity. Qed.

Lemma zpad_4 n :
  Py.zpad 4 n
  = String (Py.chr (48 + (n / 10 / 10 / 10) mod 10))
      (String (Py.chr (48 + (n / 10 / 10) mod 10))
         (String (Py.chr (48 + (n / 10) mod 10))
            (String (Py.chr (48 + n mod 10)) ""))).
Proof. reflexivity. Qed.

Lemma append_cons c s t : String c s +:+ t = String c (s +:+ t).
Proof. reflexivity. Qed.

Lemma append_nil t : "" +:+ t = t.
Proof. reflexivity. Qed.

Lemma strftime_Y_four p d :
  four_digit_year p d -> Datetime.strftime_Y p (Datetime.year d) = Py.zpad 4 (Datetime.year d).
Proof.
  unfold Datetime.strftime_Y. intros [-> | Hy]; [done|].
  destruct (Z.leb_spec 1000 (Datetime.year d)); [|lia]. by rewrite orb_true_r.
Qed.

(** For such a year [strftime] gives four digits, two digits and two
    digits, with hyphens for %Y-%m-%d. *)
Lemma strftime_Y_m_d_shape p d :
  four_digit_year p d -> is_YYYY_MM_DD (Datetime.strftime_Y_m_d p d) = true.
Proof.
  intros Hy. unfold Datetime.strftime_Y_m_d.
  rewrite (strftime_Y_four _ _ Hy), zpad_4, !zpad_2.
  repeat first [rewrite append_cons | rewrite append_nil].
  cbn [is_YYYY_MM_DD forallb]. by rewrite !isdigit_chr.
Qed.

Lemma strftime_Ymd_shape p d :
  four_digit_year p d -> is_YYYYMMDD (Datetime.strftime_Ymd p d) = true.
Proof.
  intros Hy. unfold Datetime.strftime_Ymd.
  rewrite (strftime_Y_four _ _ Hy), zpad_4, !zpad_2.
  repeat first [rewrite append_cons | rewrite append_nil].
  cbn [is_YYYYMMDD forallb]. by rewrite !isdigit_chr.
Qed.

Lemma has_nul_app a b : has_nul (a +:+ b) = has_nul a || has_nul b.
Proof.
  induction a as [|c a IH]; [done|].
  rewrite append_cons. cbn [has_nul]. by rewrite IH, orb_assoc.
Qed.

Lemma has_nul_chr n : (Py.code (Py.chr (48 + n mod 10)) =? 0) = false.
Proof.
  pose proof (Z.mod_pos_bound n 10 ltac:(lia)) as Hn.
  rewrite code_chr by lia. lia.
Qed.

Lemma has_nul_zpad w n : has_nul (Py.zpad w n) = false.
Proof.
  revert n. induction w as [|w IH]; intros n; [done|].
  cbn [Py.zpad]. rewrite has_nul_app, IH. cbn [has_nul].
  by rewrite has_nul_chr.
Qed.

Lemma has_nul_strftime_Ymd p d : has_nul (Datetime.strftime_Ymd p d) = false.
Proof.
  unfold Datetime.strftime_Ymd, Datetime.strftime_Y.
  repeat case_match; by rewrite !has_nul_app, !has_nul_zpad.
Qed.

(** The path of the PDF has a NUL character only if the court type has. *)
Lemma has_nul_pdf_path p court_type d :
  has_nul (pdf_path_of p court_type d) = has_nul court_type.
Proof.
  unfold pdf_path_of, pdf_filename_of.
  rewrite !has_nul_app, has_nul_strftime_Ymd.
  cbn. by rewrite !orb_false_r.
Qed.

Lemma make_date_raises_ValueError y m d ex :
  Datetime.make_date y m d = Py.Raise ex -> Py.exn_cls ex = Py.ValueError.
Proof.
  unfold Datetime.make_date. repeat case_match; intros [= <-]; reflexivity.
Qed.

(** [strptime] of a string raises nothing but ValueError. *)
Lemma strptime_raises_ValueError p s ex :
  Datetime.strptime_Y_m_d p s = Py.Raise ex -> Py.exn_cls ex = Py.ValueError.
Proof.
  unfold Datetime.strptime_Y_m_d. destruct (Py.is_ascii s).
  - destruct (Datetime.regex_match s) as [[[[Y m] d] rest]|];
      [|intros [= <-]; reflexivity].
    destruct (negb (String.eqb rest "")); [intros [= <-]; reflexivity|].
    destruct (Py.long_from_string Y) as [y|e1] eqn:HY; cbn [Py.bind];
      [|intros [= <-]; eauto using long_from_string_raises_ValueError].
    destruct (Py.long_from_string m) as [mo|e2] eqn:Hm; cbn [Py.bind];
      [|intros [= <-]; eauto using long_from_string_raises_ValueError].
    destruct (Py.long_from_string d) as [dy|e3] eqn:Hd; cbn [Py.bind];
      [|intros [= <-]; eauto using long_from_string_raises_ValueError].
    apply make_date_raises_ValueError.
  - destruct (Py.unicode_strptime p s) as [[[y mo] dy]|]; [|intros [= <-]; reflexivity].
    apply make_date_raises_ValueError.
Qed.

Lemma truthy_Some (o : option string) :
  Py.truthy o = true <-> exists s, o = Some s /\ s <> "".
Proof.
  destruct o as [s|]; cbn.
  - destruct (String.eqb_spec s ""); cbn; split.
    + discriminate.
    + intros (s' & [= <-] & Hne). contradiction.
    + eauto.
    + reflexivity.
  - split; [discriminate | intros (s & [=] & _)].
Qed.

Lemma prefix_snoc {A} (l : list A) (x : A) : l `prefix_of` l ++ [x].
Proof. by apply prefix_app_r. Qed.

Lemma insert_rows {R} (t : Sqlite.table R) (r : R) :
  Sqlite.rows (Sqlite.insert t r).1 = Sqlite.rows t ++ [(Sqlite.next_rowid t, r)]
  /\ (Sqlite.insert t r).2 = Sqlite.next_rowid t.
Proof. split; reflexivity. Qed.

(** A new rowid is larger than every rowid of the table. *)
Lemma max_rowid_bound {R} (l : list (Z * R)) (i : Z) (r : R) :
  (i, r) ∈ l -> i <= Sqlite.max_rowid l.
Proof.
  induction l as [|[j r'] l IH]; intros Hin.
  - by apply elem_of_nil in Hin.
  - apply elem_of_cons in Hin as [[= -> ->]|Hin]; cbn.
    + lia.
    + specialize (IH Hin). unfold Sqlite.max_rowid in IH. lia.
Qed.

Lemma next_rowid_fresh {R} (t : Sqlite.table R) (i : Z) (r : R) :
  (i, r) ∈ Sqlite.rows t -> i < Sqlite.next_rowid t.
Proof.
  intros Hin%max_rowid_bound. unfold Sqlite.next_rowid. lia.
Qed.

(** ** The library functions on sample inputs *)

Example int_accepts p :
  Py.int p "2023" = Py.Ok 2023 /\ Py.int p " +1_000 " = Py.Ok 1000
  /\ Py.int p "-5" = Py.Ok (-5) /\ Py.int p "007" = Py.Ok 7.
Proof. repeat split. Qed.

Example int_rejects p :
  Py.int p "" = Py.Raise Py.int_literal_error
  /\ Py.int p "20_" = Py.Raise Py.int_literal_error
  /\ Py.int p "1__0" = Py.Raise Py.int_literal_error
  /\ Py.int p "_1" = Py.Raise Py.int_literal_error
  /\ Py.int p "12a" = Py.Raise Py.int_literal_error
  /\ Py.int p "2023.0" = Py.Raise Py.int_literal_error.
Proof. repeat split. Qed.

Example strptime_accepts p :
  Datetime.strptime_Y_m_d p "2023-05-15" = Py.Ok (Datetime.MkDate 2023 5 15)
  /\ Datetime.strptime_Y_m_d p "2024-02-29" = Py.Ok (Datetime.MkDate 2024 2 29)
  /\ Datetime.strptime_Y_m_d p "2023-5-1" = Py.Ok (Datetime.MkDate 2023 5 1)
  /\ Datetime.strptime_Y_m_d p "2023-05- 5" = Py.Ok (Datetime.MkDate 2023 5 5).
Proof. repeat split. Qed.

Example strptime_rejects p :
  Datetime.strptime_Y_m_d p "2023-02-29"
    = Py.Raise (Py.MkExn Py.ValueError "day is out of range for month")
  /\ Datetime.strptime_Y_m_d p "2023-12-311"
      = Py.Raise (Py.MkExn Py.ValueError "unconverted data remains: 1")
  /\ Datetime.strptime_Y_m_d p "15/05/2023" = Py.Raise Datetime.does_not_match
  /\ Datetime.strptime_Y_m_d p "5-01-01" = Py.Raise Datetime.does_not_match
  /\ Datetime.strptime_Y_m_d p "0000-01-01"
      = Py.Raise (Py.MkExn Py.ValueError "year is out of range").
Proof. repeat split. Qed.

(** The one format of %Y on which platforms differ. *)
Example strftime_short_year p :
  Datetime.strftime_Y_m_d p (Datetime.MkDate 5 1 1)
    = (if Py.pads_year p then "0005-01-01" else "5-01-01")
  /\ Datetime.strftime_Ymd p (Datetime.MkDate 999 12 31)
      = (if Py.pads_year p then "09991231" else "9991231")
  /\ Datetime.strftime_Y_m_d p (Datetime.MkDate 2023 5 15) = "2023-05-15".
Proof.
  unfold Datetime.strftime_Y_m_d, Datetime.strftime_Ymd, Datetime.strftime_Y.
  by destruct (Py.pads_year p).
Qed.

Example add_days_calendar :
  Datetime.add_days (Datetime.MkDate 2023 12 31) 1 = Py.Ok (Datetime.MkDate 2024 1 1)
  /\ Datetime.add_days (Datetime.MkDate 2024 2 28) 1 = Py.Ok (Datetime.MkDate 2024 2 29)
  /\ Datetime.add_days (Datetime.MkDate 2100 2 28) 1 = Py.Ok (Datetime.MkDate 2100 3 1)
  /\ Datetime.add_days (Datetime.MkDate 2023 5 28) 7 = Py.Ok (Datetime.MkDate 2023 6 4)
  /\ Datetime.add_days (Datetime.MkDate 9999 12 31) 1
      = Py.Raise (Py.MkExn Py.OverflowError "date value out of range").
Proof. repeat split. Qed.

Example court_title p :
  Py.title p (Py.replace_char "_" " " "high_court") +:+ " Court" = "High Court Court".
Proof. reflexivity. Qed.

(* ===================================================================== *)
(** * search_case                                                        *)
(* ===================================================================== *)

Section SearchCase.

Context (e : env) (f : form) (st : store).

Lemma search_case_missing :
  lookup_fields_present f = false ->
  search_case e f st = (jsonify_error "All fields are required" 400, st).
Proof.
  unfold lookup_fields_present, search_case. by intros ->.
Qed.

Lemma search_case_bad_year ex :
  lookup_fields_present f = true ->
  Py.int (platform e) (str_of (form_get f "year")) = Py.Raise ex ->
  search_case e f st = (jsonify_error "Year must be a number" 400, st).
Proof.
  unfold lookup_fields_present, search_case. intros -> Hy.
  rewrite Hy. cbn [negb].
  destruct ex as [cls msg]. apply int_raises_ValueError in Hy. cbn in Hy.
  by subst cls.
Qed.

Lemma search_case_scrape_error y error :
  lookup_fields_present f = true ->
  Py.int (platform e) (str_of (form_get f "year")) = Py.Ok y ->
  scrape e (court_type_of f) (str_of (form_get f "case_type"))
         (str_of (form_get f "case_number")) y = ScrapeError error ->
  search_case e f st = (jsonify_error error 500, st).
Proof.
  unfold lookup_fields_present, search_case, scrape, court_type_of.
  intros -> -> Hs. cbn [negb]. by rewrite Hs.
Qed.

Lemma search_case_overflow y case_data raw :
  lookup_fields_present f = true ->
  Py.int (platform e) (str_of (form_get f "year")) = Py.Ok y ->
  scrape e (court_type_of f) (str_of (form_get f "case_type"))
         (str_of (form_get f "case_number")) y = Scraped case_data raw ->
  in_int64 y = false ->
  search_case e f st = (MkResponse ErrorPage 500, st).
Proof.
  unfold lookup_fields_present, search_case, scrape, court_type_of, in_int64.
  intros -> -> Hs Hr. cbn [negb]. rewrite Hs.
  unfold Sqlite.bind_int. by rewrite Hr.
Qed.

Lemma search_case_stored y case_data raw :
  lookup_fields_present f = true ->
  Py.int (platform e) (str_of (form_get f "year")) = Py.Ok y ->
  scrape e (court_type_of f) (str_of (form_get f "case_type"))
         (str_of (form_get f "case_number")) y = Scraped case_data raw ->
  in_int64 y = true ->
  search_case e f st =
    (jsonify_case case_data,
     MkStore (Sqlite.insert (queries st) (new_query e f y raw)).1
             (Sqlite.insert (case_details st)
                (new_case_detail (Sqlite.next_rowid (queries st)) case_data)).1
             (cause_lists st) (files st)).
Proof.
  unfold lookup_fields_present, search_case, scrape, court_type_of, in_int64.
  intros -> -> Hs Hr. cbn [negb]. rewrite Hs.
  unfold Sqlite.bind_int. by rewrite Hr.
Qed.

End SearchCase.

(** The case analysis behind every statement about [search_case]: missing
    field, bad year, failed scrape, year out of the INTEGER range, stored. *)
Ltac search_case_cases e f st :=
  let Hp := fresh "Hpresent" in
  let Hy := fresh "Hyear" in
  let Hs := fresh "Hscrape" in
  let Hr := fresh "Hrange" in
  destruct (lookup_fields_present f) eqn:Hp;
  [ destruct (Py.int (platform e) (str_of (form_get f "year"))) as [?y|?ex] eqn:Hy;
    [ destruct (scrape e (court_type_of f) (str_of (form_get f "case_type"))
                  (str_of (form_get f "case_number")) y)
        as [?case_data ?raw|?error] eqn:Hs;
      [ destruct (in_int64 y) eqn:Hr;
        [ rewrite (search_case_stored e f st _ _ _ Hp Hy Hs Hr)
        | rewrite (search_case_overflow e f st _ _ _ Hp Hy Hs Hr) ]
      | rewrite (search_case_scrape_error e f st _ _ Hp Hy Hs) ]
    | rewrite (search_case_bad_year e f st _ Hp Hy) ]
  | rewrite (search_case_missing e f st Hp) ].

Lemma lookup_fields_absent f :
  lookup_fields_present f = false <->
  Py.truthy (form_get f "case_type") = false
  \/ Py.truthy (form_get f "case_number") = false
  \/ Py.truthy (form_get f "year") = false.
Proof.
  unfold lookup_fields_present. cbn [forallb].
  destruct (Py.truthy (form_get f "case_type")),
           (Py.truthy (form_get f "case_number")),
           (Py.truthy (form_get f "year")); cbn; intuition congruence.
Qed.

Lemma truthy_false (o : option string) :
  Py.truthy o = false <-> o = None \/ o = Some "".
Proof.
  destruct o as [s|]; cbn; [|split; auto].
  destruct (String.eqb_spec s "") as [->|Hne]; cbn.
  - split; auto.
  - split; [discriminate|]. intros [[=]|[= ->]]. done.
Qed.

(** C3. [search_case] answers with status 400 exactly when one of the
    fields case_type, case_number, year is missing or empty, or [int]
    raises on the year; and a request answered with 400 leaves the store
    as it was: no row in any table, no file. *)
Theorem search_case_validation (e : env) (f : form) (st : store) :
  (status (search_case e f st).1 = 400 <->
     (form_get f "case_type" = None \/ form_get f "case_type" = Some "")
     \/ (form_get f "case_number" = None \/ form_get f "case_number" = Some "")
     \/ (form_get f "year" = None \/ form_get f "year" = Some "")
     \/ exists year ex,
          form_get f "year" = Some year /\ Py.int (platform e) year = Py.Raise ex)
  /\ (status (search_case e f st).1 = 400 -> (search_case e f st).2 = st).
Proof.
  pose proof (lookup_fields_absent f) as Habs.
  rewrite !truthy_false in Habs.
  assert (Hyear : lookup_fields_present f = true ->
                  form_get f "year" = Some (str_of (form_get f "year"))).
  { intros Hp. destruct (form_get f "year") as [y|] eqn:Hy; [done|].
    assert (lookup_fields_present f = false) by (apply Habs; auto). congruence. }
  search_case_cases e f st; cbn [fst snd status jsonify_error jsonify_case jsonify].
  - split; [|discriminate]. split; [discriminate|].
    intros [H|[H|[H|(year & ex & Hy & H)]]].
    4: { rewrite (Hyear eq_refl) in Hy. injection Hy as <-. congruence. }
    all: assert (true = false) by (apply Habs; auto); discriminate.
  - split; [|discriminate]. split; [discriminate|].
    intros [H|[H|[H|(year & ex & Hy & H)]]].
    4: { rewrite (Hyear eq_refl) in Hy. injection Hy as <-. congruence. }
    all: assert (true = false) by (apply Habs; auto); discriminate.
  - split; [|discriminate]. split; [discriminate|].
    intros [H|[H|[H|(year & ex & Hy & H)]]].
    4: { rewrite (Hyear eq_refl) in Hy. injection Hy as <-. congruence. }
    all: assert (true = false) by (apply Habs; auto); discriminate.
  - split; [|reflexivity]. split; [|reflexivity]. intros _.
    right. right. right. exists (str_of (form_get f "year")), ex. auto.
  - split; [|reflexivity]. split; [|reflexivity].
    intros _. destruct Habs as [Habs _]. specialize (Habs eq_refl). tauto.
Qed.

(** A request without a year is answered with 400 and changes nothing. *)
Lemma search_case_validation_witness :
  status (search_case sample_env [("case_type", "CR"); ("case_number", "123")] init_db).1 = 400
  /\ (search_case sample_env [("case_type", "CR"); ("case_number", "123")] init_db).2 = init_db.
Proof.
  split; [reflexivity|].
  apply (search_case_validation sample_env
           [("case_type", "CR"); ("case_number", "123")] init_db).
  reflexivity.
Defined.

(** What [int] makes of some years. *)
Example search_case_years :
  let lookup year := [("case_type", "CR"); ("case_number", "123"); ("year", year)] in
  map (fun year => status (search_case sample_env (lookup year) init_db).1)
      ["2023"; " 2023 "; "+2023"; "2_023"; "-1"; "0"; "2023.0"; "20 23"; "MMXXIII";
       "2_"; "0x7E7"; " "]
  = [200; 200; 200; 200; 200; 200; 400; 400; 400; 400; 400; 400].
Proof. reflexivity. Qed.

(** A lookup that passes validation, whose scrape succeeds and whose year
    fits the INTEGER column adds one row to [queries] and one row to
    [case_details]; the second carries the rowid of the first, which no
    earlier query has. *)
Lemma search_case_one_to_one (e : env) (f : form) (st : store) y case_data raw :
  lookup_fields_present f = true ->
  Py.int (platform e) (str_of (form_get f "year")) = Py.Ok y ->
  scrape e (court_type_of f) (str_of (form_get f "case_type"))
         (str_of (form_get f "case_number")) y = Scraped case_data raw ->
  in_int64 y = true ->
  let st' := (search_case e f st).2 in
  let query_id := Sqlite.next_rowid (queries st) in
  (search_case e f st).1 = jsonify_case case_data
  /\ Sqlite.rows (queries st') =
       Sqlite.rows (queries st) ++ [(query_id, new_query e f y raw)]
  /\ Sqlite.rows (case_details st') =
       Sqlite.rows (case_details st)
       ++ [(Sqlite.next_rowid (case_details st), new_case_detail query_id case_data)]
  /\ (forall i q, (i, q) ∈ Sqlite.rows (queries st) -> i <> query_id)
  /\ cause_lists st' = cause_lists st
  /\ files st' = files st.
Proof.
  intros Hp Hy Hs Hr. cbn zeta.
  rewrite (search_case_stored e f st _ _ _ Hp Hy Hs Hr). cbn [fst snd].
  repeat split.
  intros i q Hin%next_rowid_fresh. lia.
Qed.

(** A lookup in the high court on the empty store. *)
Example search_case_sample :
  search_case sample_env sample_lookup init_db
  = (jsonify_case (MkCase "Petitioner: John Doe vs Respondent: State of Example"
                          "2023-05-15" "2023-05-22" "Pending" None),
     MkStore
       (Sqlite.MkTable
          [(1, MkQuery "CR" "123" 2023 "high_court" "2023-05-15 10:00:00"
                       "<html></html>")] 1)
       (Sqlite.MkTable
          [(1, MkCaseDetail 1 "Petitioner: John Doe vs Respondent: State of Example"
                            "2023-05-15" "2023-05-22" "Pending" None)] 1)
       Sqlite.empty ∅).
Proof. reflexivity. Qed.

(** The largest year that is stored: 2^63 - 1. *)
Example search_case_largest_year :
  let f := [ ("case_type", "CR"); ("case_number", "123");
             ("year", "9223372036854775807") ] in
  status (search_case sample_env f init_db).1 = 200
  /\ map (fun r => q_year r.2) (Sqlite.rows (queries (search_case sample_env f init_db).2))
     = [2 ^ 63 - 1].
Proof. split; reflexivity. Qed.

(** C1 fails on the lookup with year 9223372036854775808 (2^63): the form
    passes validation and the scrape succeeds, yet the year does not fit
    the 64-bit INTEGER parameter of the INSERT into [queries]; the
    OverflowError leaves the view, the answer has status 500, and neither a
    Query row nor a CaseDetail row is stored. *)
Theorem search_case_year_out_of_range :
  let f := [ ("case_type", "CR"); ("case_number", "123");
             ("year", "9223372036854775808") ] in
  lookup_fields_present f = true
  /\ Py.int (platform sample_env) (str_of (form_get f "year")) = Py.Ok (2 ^ 63)
  /\ scrape sample_env (court_type_of f) "CR" "123" (2 ^ 63) =
       Scraped (MkCase "Applicant: Jane Smith vs Opponent: ABC Corporation"
                       "2023-06-20" "2023-05-20" "Hearing" None)
               "<html></html>"
  /\ search_case sample_env f init_db = (MkResponse ErrorPage 500, init_db).
Proof. cbn zeta. repeat split; vm_compute; reflexivity. Qed.

(* ===================================================================== *)
(** * The cause-list views                                               *)
(* ===================================================================== *)

Section TargetDate.

Context (e : env).

Lemma target_date_of_absent (o : option string) tomorrow :
  Py.truthy o = false ->
  Datetime.add_days (today e) 1 = Py.Ok tomorrow ->
  target_date_of e o = Py.Ok (inr tomorrow).
Proof. unfold target_date_of. by intros -> ->. Qed.

Lemma target_date_of_parsed (o : option string) d :
  Py.truthy o = true ->
  Datetime.strptime_Y_m_d (platform e) (str_of o) = Py.Ok d ->
  target_date_of e o = Py.Ok (inr d).
Proof. unfold target_date_of. by intros -> ->. Qed.

Lemma target_date_of_rejected (o : option string) ex :
  Py.truthy o = true ->
  Datetime.strptime_Y_m_d (platform e) (str_of o) = Py.Raise ex ->
  target_date_of e o = Py.Ok (inl invalid_date).
Proof.
  unfold target_date_of. intros -> Hs. rewrite Hs.
  destruct ex as [cls msg]. apply strptime_raises_ValueError in Hs. cbn in Hs.
  by subst cls.
Qed.

(** The only response the date block produces is the 400 one. *)
Lemma target_date_of_inl (o : option string) r :
  target_date_of e o = Py.Ok (inl r) -> r = invalid_date.
Proof.
  unfold target_date_of, invalid_date. destruct (Py.truthy o).
  - destruct (Datetime.strptime_Y_m_d (platform e) (str_of o)) as [d|[[] msg]];
      congruence.
  - destruct (Datetime.add_days (today e) 1); cbn; congruence.
Qed.

End TargetDate.

Section Scraper.

Context (e : env).

(** With a target date, the scraper's method never raises. *)
Lemma scraper_download_total court_type d :
  exists r, CourtScraper.download_cause_list e court_type (Some d) = Py.Ok r.
Proof. cbn. eauto. Qed.

(** What a successful download returns. *)
Lemma scraper_downloaded court_type target cause_list_data pdf raw :
  CourtScraper.download_cause_list e court_type target
    = Py.Ok (Downloaded cause_list_data pdf raw) ->
  exists d,
    match target with Some d' => d' = d
                 | None => Datetime.add_days (today e) 1 = Py.Ok d end
    /\ cause_list_data =
         MkCauseList (Py.title (platform e) (Py.replace_char "_" " " court_type)
                      +:+ " Court")
                     (Datetime.strftime_Y_m_d (platform e) d) CourtScraper.mock_cases
    /\ CourtScraper.generate_cause_list_pdf e cause_list_data = Py.Ok pdf.
Proof.
  unfold CourtScraper.download_cause_list.
  assert (Hbody : forall d,
    Py.Ok (A := download_result)
      match
        (let url :=
           if String.eqb court_type "high_court"
           then "https://hcservices.ecourts.gov.in/hcservices/main.php"
           else "https://services.ecourts.gov.in/ecourtindia_v6/" in
         response <- session_get e url ;;
         let cause_list_data :=
           {| court := Py.title (platform e) (Py.replace_char "_" " " court_type)
                       +:+ " Court";
              date := Datetime.strftime_Y_m_d (platform e) d;
              cases := CourtScraper.mock_cases |} in
         pdf_content <- CourtScraper.generate_cause_list_pdf e cause_list_data ;;
         Py.Ok (cause_list_data, pdf_content, response))
      with
      | Py.Ok (cause_list_data, pdf_content, text) =>
          Downloaded cause_list_data pdf_content text
      | Py.Raise ex => DownloadError (Py.exn_str ex)
      end = Py.Ok (Downloaded cause_list_data pdf raw) ->
    cause_list_data =
      MkCauseList (Py.title (platform e) (Py.replace_char "_" " " court_type)
                   +:+ " Court")
                  (Datetime.strftime_Y_m_d (platform e) d) CourtScraper.mock_cases
    /\ CourtScraper.generate_cause_list_pdf e cause_list_data = Py.Ok pdf).
  { intros d. cbn zeta.
    destruct (session_get e _) as [text|?]; cbn [Py.bind]; [|discriminate].
    destruct (CourtScraper.generate_cause_list_pdf e _) as [p|?] eqn:Hpdf;
      cbn [Py.bind]; [|discriminate].
    intros [= <- <- <-]. auto. }
  destruct target as [d|]; cbn [Py.bind].
  - intros H. exists d. split; [done|]. by apply Hbody.
  - destruct (Datetime.add_days (today e) 1) as [d|?]; cbn [Py.bind]; [|discriminate].
    intros H. exists d. split; [done|]. by apply Hbody.
Qed.

(** The scraper produces a cause list as soon as the portal answers and
    one of the two PDF back ends renders. *)
Lemma scraper_downloads court_type d pdf raw :
  let cause_list_data :=
    MkCauseList (Py.title (platform e) (Py.replace_char "_" " " court_type)
                 +:+ " Court")
                (Datetime.strftime_Y_m_d (platform e) d) CourtScraper.mock_cases in
  session_get e (if String.eqb court_type "high_court"
                 then "https://hcservices.ecourts.gov.in/hcservices/main.php"
                 else "https://services.ecourts.gov.in/ecourtindia_v6/") = Py.Ok raw ->
  CourtScraper.generate_cause_list_pdf e cause_list_data = Py.Ok pdf ->
  CourtScraper.download_cause_list e court_type (Some d)
    = Py.Ok (Downloaded cause_list_data pdf raw).
Proof.
  cbn zeta. intros Hget Hpdf. unfold CourtScraper.download_cause_list.
  cbn [Py.bind]. cbn zeta. rewrite Hget. cbn [Py.bind]. by rewrite Hpdf.
Qed.

End Scraper.

Section DownloadCauseList.

Context (e : env) (st : store).

Lemma download_on_error court_type d error :
  CourtScraper.download_cause_list e court_type (Some d) = Py.Ok (DownloadError error) ->
  download_cause_list_on e court_type d st = Py.Ok (jsonify_error error 500, st).
Proof. unfold download_cause_list_on. by intros ->. Qed.

Lemma download_on_bad_path court_type d cause_list_data pdf raw :
  CourtScraper.download_cause_list e court_type (Some d)
    = Py.Ok (Downloaded cause_list_data pdf raw) ->
  has_nul (pdf_path_of (platform e) court_type d) = true ->
  download_cause_list_on e court_type d st
    = Py.Raise (Py.MkExn Py.ValueError "embedded null byte").
Proof.
  unfold download_cause_list_on, pdf_path_of, pdf_filename_of, write_file.
  intros -> Hnul. cbn [Py.bind]. cbn zeta. by rewrite Hnul.
Qed.

Lemma download_on_refused court_type d cause_list_data pdf raw ex :
  CourtScraper.download_cause_list e court_type (Some d)
    = Py.Ok (Downloaded cause_list_data pdf raw) ->
  has_nul (pdf_path_of (platform e) court_type d) = false ->
  os_write e (pdf_path_of (platform e) court_type d) = Py.Raise ex ->
  download_cause_list_on e court_type d st = Py.Raise ex.
Proof.
  unfold download_cause_list_on, pdf_path_of, pdf_filename_of, write_file.
  intros -> Hnul Hw. cbn [Py.bind]. cbn zeta. by rewrite Hnul, Hw.
Qed.

(** Once the file is written the row is inserted, whatever [send_file]
    does afterwards. *)
Lemma download_on_stored court_type d cause_list_data pdf raw u :
  CourtScraper.download_cause_list e court_type (Some d)
    = Py.Ok (Downloaded cause_list_data pdf raw) ->
  has_nul (pdf_path_of (platform e) court_type d) = false ->
  os_write e (pdf_path_of (platform e) court_type d) = Py.Ok u ->
  download_cause_list_on e court_type d st
    = Py.Ok (download_answer e court_type d pdf,
             with_cause_list e court_type d pdf raw st).
Proof.
  unfold download_cause_list_on, download_answer, with_cause_list,
    pdf_path_of, pdf_filename_of, write_file.
  intros -> Hnul Hw. cbn [Py.bind]. cbn zeta. by rewrite Hnul, Hw.
Qed.

(** The view, by the result of its date block. *)
Lemma download_cause_list_dated (f : form) d :
  target_date_of e (form_get f "date") = Py.Ok (inr d) ->
  download_cause_list e f st
    = run st (download_cause_list_on e (court_type_of f) d st).
Proof. unfold download_cause_list, court_type_of. by intros ->. Qed.

Lemma download_cause_list_invalid (f : form) r :
  target_date_of e (form_get f "date") = Py.Ok (inl r) ->
  download_cause_list e f st = (invalid_date, st).
Proof.
  intros H. pose proof (target_date_of_inl _ _ _ H) as ->.
  unfold download_cause_list. by rewrite H.
Qed.

Lemma download_cause_list_raised (f : form) ex :
  target_date_of e (form_get f "date") = Py.Raise ex ->
  download_cause_list e f st = (MkResponse ErrorPage 500, st).
Proof. unfold download_cause_list. by intros ->. Qed.

(** The view succeeds when its date block gives a date, the scraper a
    cause list, the court type has no NUL character, the operating system
    lets the file be written and [send_file] accepts the download name. *)
Lemma download_cause_list_succeeds (f : form) d cause_list_data pdf raw u u' :
  target_date_of e (form_get f "date") = Py.Ok (inr d) ->
  CourtScraper.download_cause_list e (court_type_of f) (Some d)
    = Py.Ok (Downloaded cause_list_data pdf raw) ->
  has_nul (court_type_of f) = false ->
  os_write e (pdf_path_of (platform e) (court_type_of f) d) = Py.Ok u ->
  send_file e (pdf_filename_of (platform e) (court_type_of f) d) = Py.Ok u' ->
  status (download_cause_list e f st).1 = 200.
Proof.
  intros Ht Hd Hnul Hw Hs. rewrite (download_cause_list_dated f d Ht).
  rewrite <- (has_nul_pdf_path (platform e) _ d) in Hnul.
  rewrite (download_on_stored _ _ _ _ _ _ Hd Hnul Hw).
  unfold download_answer. by rewrite Hs.
Qed.

End DownloadCauseList.

(** The case analysis behind the statements about [download_cause_list]:
    date rejected, path refused by Python, attachment sent, attachment
    refused after the write, path refused by the operating system, scrape
    failed, date block raised. *)
Ltac download_cases e f st :=
  let Ht := fresh "Htarget" in
  let Hd := fresh "Hdownload" in
  let Hn := fresh "Hnul" in
  let Hw := fresh "Hwrite" in
  let Hs := fresh "Hsend" in
  destruct (target_date_of e (form_get f "date")) as [[?r|?d]|?ex] eqn:Ht;
  [ rewrite (download_cause_list_invalid e st f _ Ht)
  | rewrite (download_cause_list_dated e st f _ Ht);
    destruct (scraper_download_total e (court_type_of f) d) as [[?data ?pdf ?raw|?error] Hd];
    [ destruct (has_nul (pdf_path_of (platform e) (court_type_of f) d)) eqn:Hn;
      [ rewrite (download_on_bad_path e st _ _ _ _ _ Hd Hn)
      | destruct (os_write e (pdf_path_of (platform e) (court_type_of f) d))
          as [?u|?ex] eqn:Hw;
        [ rewrite (download_on_stored e st _ _ _ _ _ _ Hd Hn Hw);
          unfold download_answer;
          destruct (send_file e (pdf_filename_of (platform e) (court_type_of f) d))
            as [?u|?ex] eqn:Hs
        | rewrite (download_on_refused e st _ _ _ _ _ _ Hd Hn Hw) ] ]
    | rewrite (download_on_error e st _ _ _ Hd) ]
  | rewrite (download_cause_list_raised e st f _ Ht) ];
  cbn [run fst snd status content invalid_date jsonify_error].

(** X21. When [download_cause_list], with the target date [d] and the
    cause list of the scraper, answers with status 200, the response is the
    attachment of the PDF bytes under the name
    cause_list_<court_type>_<date as %Y%m%d>.pdf; the table [cause_lists]
    has exactly one more row, made of the court type, the date as
    %Y-%m-%d, the path of the PDF, the raw text and the current timestamp;
    the same PDF bytes were written under that path; the other two tables
    are as before.  For a year that is written with four digits the two
    renderings of the date have the shapes YYYY-MM-DD and YYYYMMDD. *)
Theorem download_cause_list_stores (e : env) (f : form) (st : store)
    d cause_list_data pdf raw :
  target_date_of e (form_get f "date") = Py.Ok (inr d) ->
  CourtScraper.download_cause_list e (court_type_of f) (Some d)
    = Py.Ok (Downloaded cause_list_data pdf raw) ->
  status (download_cause_list e f st).1 = 200 ->
  let court_type := court_type_of f in
  let st' := (download_cause_list e f st).2 in
  (download_cause_list e f st).1
    = MkResponse (Attachment pdf
                    ("cause_list_" +:+ court_type +:+ "_"
                     +:+ Datetime.strftime_Ymd (platform e) d +:+ ".pdf")
                    "application/pdf") 200
  /\ Sqlite.rows (cause_lists st')
       = Sqlite.rows (cause_lists st)
         ++ [(Sqlite.next_rowid (cause_lists st),
              MkCauseListRow court_type (Datetime.strftime_Y_m_d (platform e) d)
                             (pdf_path_of (platform e) court_type d) raw
                             (current_timestamp e))]
  /\ files st' !! pdf_path_of (platform e) court_type d = Some pdf
  /\ queries st' = queries st
  /\ case_details st' = case_details st
  /\ (four_digit_year (platform e) d ->
      is_YYYY_MM_DD (Datetime.strftime_Y_m_d (platform e) d) = true
      /\ is_YYYYMMDD (Datetime.strftime_Ymd (platform e) d) = true).
Proof.
  intros Ht Hd. rewrite (download_cause_list_dated e st f d Ht).
  destruct (has_nul (pdf_path_of (platform e) (court_type_of f) d)) eqn:Hn;
    [by rewrite (download_on_bad_path e st _ _ _ _ _ Hd Hn)|].
  destruct (os_write e (pdf_path_of (platform e) (court_type_of f) d)) as [u|ex] eqn:Hw;
    [|by rewrite (download_on_refused e st _ _ _ _ _ _ Hd Hn Hw)].
  rewrite (download_on_stored e st _ _ _ _ _ _ Hd Hn Hw). unfold download_answer.
  destruct (send_file e _); [|discriminate].
  intros _. cbn zeta. cbn [run fst snd with_cause_list queries case_details cause_lists files].
  repeat split.
  - by rewrite lookup_insert_eq.
  - by apply strftime_Y_m_d_shape.
  - by apply strftime_Ymd_shape.
Qed.

(** A download of the list of 29 February 2024 on the sample
    environment. *)
Lemma download_cause_list_stores_witness :
  let f := [("court_type", "high_court"); ("date", "2024-02-29")] in
  let st' := (download_cause_list sample_env f init_db).2 in
  (download_cause_list sample_env f init_db).1
    = MkResponse (Attachment sample_pdf "cause_list_high_court_20240229.pdf"
                             "application/pdf") 200
  /\ Sqlite.rows (cause_lists st')
       = [(1, MkCauseListRow "high_court" "2024-02-29"
                "static/pdfs/cause_list_high_court_20240229.pdf" "<html></html>"
                "2023-05-15 10:00:00")]
  /\ files st' !! "static/pdfs/cause_list_high_court_20240229.pdf" = Some sample_pdf
  /\ queries st' = queries init_db
  /\ case_details st' = case_details init_db
  /\ (four_digit_year glibc (Datetime.MkDate 2024 2 29) ->
      is_YYYY_MM_DD "2024-02-29" = true /\ is_YYYYMMDD "20240229" = true).
Proof.
  apply (download_cause_list_stores sample_env
           [("court_type", "high_court"); ("date", "2024-02-29")] init_db
           (Datetime.MkDate 2024 2 29)
           (MkCauseList "High Court Court" "2024-02-29" CourtScraper.mock_cases)
           sample_pdf "<html></html>").
  - reflexivity.
  - reflexivity.
  - reflexivity.
Defined.

(** C5 fails on the download for the date 0999-12-31 where the C library
    does not pad %Y (glibc): the request is answered with status 200, but
    the row of [cause_lists] holds the list date 999-12-31, which is not of
    the form YYYY-MM-DD, and the download name and the path of the PDF
    carry the stamp 9991231, which is not of the form YYYYMMDD. *)
Theorem download_cause_list_short_year :
  let f := [("date", "0999-12-31")] in
  download_cause_list sample_env f init_db
    = (MkResponse (Attachment sample_pdf "cause_list_district_court_9991231.pdf"
                              "application/pdf") 200,
       MkStore Sqlite.empty Sqlite.empty
         (Sqlite.MkTable
            [(1, MkCauseListRow "district_court" "999-12-31"
                   "static/pdfs/cause_list_district_court_9991231.pdf"
                   "<html></html>" "2023-05-15 10:00:00")] 1)
         {["static/pdfs/cause_list_district_court_9991231.pdf" := sample_pdf]})
  /\ is_YYYY_MM_DD "999-12-31" = false
  /\ is_YYYYMMDD "9991231" = false.
Proof. cbn zeta. repeat split. Qed.

Section CheckCase.

Context (e : env) (st : store).

Lemma check_case_missing (f : form) :
  Py.truthy (form_get f "case_number") = false ->
  check_case_in_cause_list e f st = (jsonify_error "Case number is required" 400, st).
Proof. unfold check_case_in_cause_list. by intros ->. Qed.

Lemma check_case_dated (f : form) d :
  Py.truthy (form_get f "case_number") = true ->
  target_date_of e (form_get f "date") = Py.Ok (inr d) ->
  check_case_in_cause_list e f st
    = run st (check_case_in_cause_list_on e (court_type_of f)
                (str_of (form_get f "case_number")) d st).
Proof. unfold check_case_in_cause_list, court_type_of. by intros -> ->. Qed.

Lemma check_case_invalid (f : form) r :
  Py.truthy (form_get f "case_number") = true ->
  target_date_of e (form_get f "date") = Py.Ok (inl r) ->
  check_case_in_cause_list e f st = (invalid_date, st).
Proof.
  intros Hn H. pose proof (target_date_of_inl _ _ _ H) as ->.
  unfold check_case_in_cause_list. by rewrite Hn, H.
Qed.

Lemma check_case_raised (f : form) ex :
  Py.truthy (form_get f "case_number") = true ->
  target_date_of e (form_get f "date") = Py.Raise ex ->
  check_case_in_cause_list e f st = (MkResponse ErrorPage 500, st).
Proof. unfold check_case_in_cause_list. by intros -> ->. Qed.

Lemma check_on_error court_type case_number d error :
  CourtScraper.download_cause_list e court_type (Some d) = Py.Ok (DownloadError error) ->
  check_case_in_cause_list_on e court_type case_number d st
    = Py.Ok (jsonify_error error 500, st).
Proof. unfold check_case_in_cause_list_on. by intros ->. Qed.

Lemma check_on_answer court_type case_number d cause_list_data pdf raw :
  CourtScraper.download_cause_list e court_type (Some d)
    = Py.Ok (Downloaded cause_list_data pdf raw) ->
  check_case_in_cause_list_on e court_type case_number d st
    = Py.Ok (check_answer (platform e)
               (existsb (fun case => String.eqb (entry_case_number case) case_number)
                        (cases cause_list_data))
               d court_type case_number,
             st).
Proof. unfold check_case_in_cause_list_on. by intros ->. Qed.

(** The store is the same after the view, whatever the answer. *)
Lemma check_case_read_only (f : form) :
  (check_case_in_cause_list e f st).2 = st.
Proof.
  destruct (Py.truthy (form_get f "case_number")) eqn:Hn;
    [|by rewrite check_case_missing].
  destruct (target_date_of e (form_get f "date")) as [[r|d]|ex] eqn:Ht.
  - by erewrite check_case_invalid.
  - rewrite (check_case_dated f d Hn Ht).
    destruct (scraper_download_total e (court_type_of f) d) as [[data pdf raw|error] Hd].
    + by rewrite (check_on_answer _ _ _ _ _ _ Hd).
    + by rewrite (check_on_error _ _ _ _ Hd).
  - by erewrite check_case_raised.
Qed.

End CheckCase.

Lemma existsb_case_number (l : list cause_entry) (case_number : string) :
  existsb (fun case => String.eqb (entry_case_number case) case_number) l = true
  <-> exists case, case ∈ l /\ entry_case_number case = case_number.
Proof.
  induction l as [|c l IH]; cbn.
  - split; [discriminate|]. intros (case & Hin & _). by apply elem_of_nil in Hin.
  - rewrite orb_true_iff, IH. split.
    + intros [Heq%String.eqb_eq|(case & Hin & Heq)].
      * exists c. split; [apply list_elem_of_here|done].
      * exists case. split; [by apply list_elem_of_further|done].
    + intros (case & Hin & Heq). apply elem_of_cons in Hin as [->|Hin].
      * left. by apply String.eqb_eq.
      * right. eauto.
Qed.

(** X20. A request with a case number, whose date block gives the target
    date [d] and whose scrape of the cause list succeeds, is answered with the
    members found, date, court and case_number, where found is true
    exactly when some entry of the downloaded cases has the submitted case
    number, date is [d] as %Y-%m-%d, and court and case_number are the
    submitted values; the store is unchanged.  For a year that is written
    with four digits the date has the shape YYYY-MM-DD. *)
Theorem check_case_linear_search (e : env) (f : form) (st : store)
    case_number d cause_list_data pdf raw :
  form_get f "case_number" = Some case_number ->
  case_number <> "" ->
  target_date_of e (form_get f "date") = Py.Ok (inr d) ->
  CourtScraper.download_cause_list e (court_type_of f) (Some d)
    = Py.Ok (Downloaded cause_list_data pdf raw) ->
  let found :=
    existsb (fun case => String.eqb (entry_case_number case) case_number)
            (cases cause_list_data) in
  check_case_in_cause_list e f st
    = (jsonify [ ("found", JBool found);
                 ("date", JStr (Datetime.strftime_Y_m_d (platform e) d));
                 ("court", JStr (form_get_default f "court_type" "district_court"));
                 ("case_number", JStr case_number) ],
       st)
  /\ (found = true <->
      exists case, case ∈ cases cause_list_data
                   /\ entry_case_number case = case_number)
  /\ (four_digit_year (platform e) d ->
      is_YYYY_MM_DD (Datetime.strftime_Y_m_d (platform e) d) = true).
Proof.
  intros Hcn Hne Ht Hd.
  assert (Hn : Py.truthy (form_get f "case_number") = true).
  { apply truthy_Some. eauto. }
  cbn zeta. split; [|split].
  - rewrite (check_case_dated e st f d Hn Ht), (check_on_answer e st _ _ _ _ _ _ Hd).
    rewrite Hcn. reflexivity.
  - apply existsb_case_number.
  - apply strftime_Y_m_d_shape.
Qed.

(** The case CV456/2023 is on the list of 29 February 2024. *)
Lemma check_case_linear_search_witness :
  check_case_in_cause_list sample_env
      [("case_number", "CV456/2023"); ("date", "2024-02-29")] init_db
    = (jsonify [ ("found", JBool true);
                 ("date", JStr "2024-02-29");
                 ("court", JStr "district_court");
                 ("case_number", JStr "CV456/2023") ],
       init_db)
  /\ (true = true <->
      exists case, case ∈ CourtScraper.mock_cases
                   /\ entry_case_number case = "CV456/2023")
  /\ (four_digit_year glibc (Datetime.MkDate 2024 2 29) ->
      is_YYYY_MM_DD "2024-02-29" = true).
Proof.
  apply (check_case_linear_search sample_env
           [("case_number", "CV456/2023"); ("date", "2024-02-29")] init_db
           "CV456/2023" (Datetime.MkDate 2024 2 29)
           (MkCauseList "District Court Court" "2024-02-29" CourtScraper.mock_cases)
           sample_pdf "<html></html>").
  - reflexivity.
  - discriminate.
  - reflexivity.
  - reflexivity.
Defined.

(** C4 fails on the check of CR123/2023 for the date 0005-01-01 where the
    C library does not pad %Y (glibc): the case is found, but the date is
    echoed as 5-01-01, which is not of the form YYYY-MM-DD; sent back as
    the date of the next request it is refused with the message 'Invalid
    date format. Use YYYY-MM-DD'. *)
Theorem check_case_short_year :
  let f := [("case_number", "CR123/2023"); ("date", "0005-01-01")] in
  check_case_in_cause_list sample_env f init_db
    = (jsonify [ ("found", JBool true);
                 ("date", JStr "5-01-01");
                 ("court", JStr "district_court");
                 ("case_number", JStr "CR123/2023") ],
       init_db)
  /\ is_YYYY_MM_DD "5-01-01" = false
  /\ check_case_in_cause_list sample_env
         [("case_number", "CR123/2023"); ("date", "5-01-01")] init_db
       = (jsonify_error "Invalid date format. Use YYYY-MM-DD" 400, init_db).
Proof. cbn zeta. repeat split. Qed.

(** C8. Whatever the court type and the target date, a cause list that
    the scraper produces has exactly the three cases CR123/2023 (Criminal),
    CV456/2023 (Civil) and FA789/2023 (Family); and a check that reaches
    its answer reports found = true exactly for these three case numbers. *)
Theorem mock_cause_list (e : env) :
  (forall court_type target cause_list_data pdf raw,
     CourtScraper.download_cause_list e court_type target
       = Py.Ok (Downloaded cause_list_data pdf raw) ->
     map (fun case => (entry_case_number case, entry_case_type case))
         (cases cause_list_data)
       = [ ("CR123/2023", "Criminal"); ("CV456/2023", "Civil");
           ("FA789/2023", "Family") ])
  /\ (forall (f : form) (st : store) case_number d cause_list_data pdf raw,
        form_get f "case_number" = Some case_number ->
        case_number <> "" ->
        target_date_of e (form_get f "date") = Py.Ok (inr d) ->
        CourtScraper.download_cause_list e (court_type_of f) (Some d)
          = Py.Ok (Downloaded cause_list_data pdf raw) ->
        exists found,
          check_case_in_cause_list e f st
            = (check_answer (platform e) found d (court_type_of f) case_number, st)
          /\ (found = true <->
              case_number = "CR123/2023" \/ case_number = "CV456/2023"
              \/ case_number = "FA789/2023")).
Proof.
  split.
  - intros court_type target data pdf raw (d & _ & -> & _)%scraper_downloaded.
    reflexivity.
  - intros f st case_number d data pdf raw Hcn Hne Ht Hd.
    assert (Hn : Py.truthy (form_get f "case_number") = true).
    { apply truthy_Some. eauto. }
    eexists. split.
    + rewrite (check_case_dated e st f d Hn Ht), (check_on_answer e st _ _ _ _ _ _ Hd).
      rewrite Hcn. reflexivity.
    + apply scraper_downloaded in Hd as (d' & _ & -> & _).
      unfold CourtScraper.mock_cases. cbn [cases existsb entry_case_number].
      change (str_of (Some case_number)) with case_number.
      rewrite !orb_true_iff, !String.eqb_eq. intuition congruence.
Qed.

(** The case AB1/2023 is not on the list. *)
Lemma mock_cause_list_witness :
  exists found,
    check_case_in_cause_list sample_env
        [("case_number", "AB1/2023"); ("court_type", "high_court")] init_db
      = (check_answer glibc found (Datetime.MkDate 2023 5 16) "high_court" "AB1/2023",
         init_db)
    /\ (found = true <->
        "AB1/2023" = "CR123/2023" \/ "AB1/2023" = "CV456/2023"
        \/ "AB1/2023" = "FA789/2023").
Proof.
  apply (proj2 (mock_cause_list sample_env)
           [("case_number", "AB1/2023"); ("court_type", "high_court")] init_db
           "AB1/2023" (Datetime.MkDate 2023 5 16)
           (MkCauseList "High Court Court" "2023-05-16" CourtScraper.mock_cases)
           sample_pdf "<html></html>").
  - reflexivity.
  - discriminate.
  - reflexivity.
  - reflexivity.
Defined.

(** C9. A request without a date field, on a day that has a tomorrow:
    [download_cause_list] runs its steps after the date block with
    tomorrow as the target date, [check_case_in_cause_list] does so once
    the case number is there, and the scraper's own default for a missing
    target date is tomorrow as well. *)
Theorem tomorrow_by_default (e : env) (f : form) (st : store) tomorrow :
  form_get f "date" = None ->
  Datetime.add_days (today e) 1 = Py.Ok tomorrow ->
  download_cause_list e f st
    = run st (download_cause_list_on e (court_type_of f) tomorrow st)
  /\ (Py.truthy (form_get f "case_number") = true ->
      check_case_in_cause_list e f st
        = run st (check_case_in_cause_list_on e (court_type_of f)
                    (str_of (form_get f "case_number")) tomorrow st))
  /\ (forall court_type,
        CourtScraper.download_cause_list e court_type None
          = CourtScraper.download_cause_list e court_type (Some tomorrow)).
Proof.
  intros Hnone Htomorrow.
  assert (Ht : target_date_of e (form_get f "date") = Py.Ok (inr tomorrow)).
  { apply target_date_of_absent; [by rewrite Hnone|done]. }
  split; [|split].
  - by apply download_cause_list_dated.
  - intros Hn. by apply check_case_dated.
  - intros court_type. unfold CourtScraper.download_cause_list. by rewrite Htomorrow.
Qed.

(** On 15 May 2023 the target date is 16 May 2023. *)
Lemma tomorrow_by_default_witness :
  let f := [("case_number", "CR123/2023")] in
  download_cause_list sample_env f init_db
    = run init_db (download_cause_list_on sample_env "district_court"
                     (Datetime.MkDate 2023 5 16) init_db)
  /\ (Py.truthy (form_get f "case_number") = true ->
      check_case_in_cause_list sample_env f init_db
        = run init_db (check_case_in_cause_list_on sample_env "district_court"
                         "CR123/2023" (Datetime.MkDate 2023 5 16) init_db))
  /\ (forall court_type,
        CourtScraper.download_cause_list sample_env court_type None
          = CourtScraper.download_cause_list sample_env court_type
              (Some (Datetime.MkDate 2023 5 16))).
Proof.
  apply (tomorrow_by_default sample_env [("case_number", "CR123/2023")] init_db
           (Datetime.MkDate 2023 5 16)).
  - reflexivity.
  - reflexivity.
Defined.

(** ** Dates that are not in the format *)

(** The day alternatives consume the whole rest only for a day text. *)
Lemma day_full (r4 : string) (Y m Y' m' d' : string) :
  Datetime.first_alt Datetime.d_alternatives r4
    (fun d r5 => Some (Y, m, d, r5)) = Some (Y', m', d', "") ->
  is_day_text r4 = true.
Proof.
  unfold Datetime.d_alternatives, Datetime.first_alt, Datetime.one, Datetime.two,
    is_day_text.
  destruct r4 as [|a [|b [|c r]]]; [done| | |].
  - destruct (Datetime.in_range "1" "9" a); [done|discriminate].
  - destruct (Ascii.eqb "3" a), (Datetime.in_range "0" "1" b),
      (Datetime.in_range "1" "2" a), (Py.isdigit b), (Ascii.eqb "0" a),
      (Datetime.in_range "1" "9" b), (Datetime.in_range "1" "9" a), (Ascii.eqb " " a);
      cbn; congruence.
  - repeat case_match; congruence.
Qed.

Lemma in_range_not_hyphen lo hi c :
  Datetime.in_range lo hi c = true -> 46 <= Py.code lo -> Ascii.eqb c "-" = false.
Proof.
  unfold Datetime.in_range. intros H Hlo.
  destruct (Ascii.eqb_spec c "-") as [->|]; [|done].
  change (Py.code "-") with 45 in H. lia.
Qed.

Lemma lit_hyphen s r : Datetime.lit "-" s = Some r -> s = String "-" r.
Proof.
  destruct s as [|c s]; [done|]. cbn [Datetime.lit].
  destruct (Ascii.eqb_spec "-" c) as [<-|]; [|done]. by intros [= ->].
Qed.

(** The month alternatives, the hyphen and the day alternatives: the
    ordered choice with backtracking matches the whole input only when the
    text before its first hyphen is a month text and the text after it a
    day text. *)
Lemma month_day_full (r2 : string) (Y Y' m' d' : string) :
  Datetime.first_alt Datetime.m_alternatives r2 (fun m r3 =>
    match Datetime.lit "-" r3 with
    | Some r4 =>
        Datetime.first_alt Datetime.d_alternatives r4 (fun d r5 => Some (Y, m, d, r5))
    | None => None
    end) = Some (Y', m', d', "") ->
  match split_hyphen r2 with
  | Some (m, d) => is_month_text m && is_day_text d
  | None => false
  end = true.
Proof.
  unfold Datetime.m_alternatives, Datetime.one, Datetime.two.
  cbn [Datetime.first_alt].
  destruct r2 as [|a [|b r]]; cbn beta iota; [done| |].
  - cbn [Datetime.lit]. by destruct (Datetime.in_range "1" "9" a).
  - destruct (Ascii.eqb_spec b "-") as [->|Hb].
    + change (Datetime.in_range "0" "2" "-") with false.
      change (Datetime.in_range "1" "9" "-") with false.
      rewrite !andb_false_r.
      destruct (Datetime.in_range "1" "9" a) eqn:Ha; [|done].
      cbn [Datetime.lit]. change (Ascii.eqb "-" "-") with true. cbv iota.
      destruct (Datetime.first_alt _ r _) as [x|] eqn:Hd; [intros [= ->]|done].
      apply day_full in Hd.
      cbn [split_hyphen].
      rewrite (in_range_not_hyphen _ _ _ Ha) by (vm_compute; discriminate).
      change (Ascii.eqb "-" "-") with true. cbv iota.
      cbn [is_month_text]. by rewrite Ha, Hd.
    + assert (Hlit : Datetime.lit "-" (String b r) = None).
      { cbn [Datetime.lit]. destruct (Ascii.eqb_spec "-" b); congruence. }
      destruct (Ascii.eqb "1" a && Datetime.in_range "0" "2" b) eqn:H1,
               (Ascii.eqb "0" a && Datetime.in_range "1" "9" b) eqn:H0,
               (Datetime.in_range "1" "9" a) eqn:H9;
        cbn beta iota; rewrite ?Hlit; try done.
      all: destruct (Datetime.lit "-" r) as [r4|] eqn:Hr; [|done].
      all: apply lit_hyphen in Hr as ->.
      all: destruct (Datetime.first_alt _ r4 _) as [x|] eqn:Hd; [intros [= ->]|done].
      all: apply day_full in Hd.
      all: assert (Ha : Ascii.eqb a "-" = false)
        by (destruct (Ascii.eqb_spec "0" a) as [<-|]; [done|];
            destruct (Ascii.eqb_spec "1" a) as [<-|]; done).
      all: cbn [split_hyphen]; rewrite Ha; apply Ascii.eqb_neq in Hb; rewrite Hb.
      all: change (Ascii.eqb "-" "-") with true; cbv iota.
      all: cbn [is_month_text]; by rewrite H0, H1, Hd.
Qed.

(** A string that the regular expression matches entirely has the form
    that [is_Y_m_d] describes. *)
Lemma regex_match_form s (Y m d : string) :
  Datetime.regex_match s = Some (Y, m, d, "") -> is_Y_m_d s = true.
Proof.
  unfold Datetime.regex_match, Datetime.match_Y, is_Y_m_d.
  destruct s as [|y1 [|y2 [|y3 [|y4 r1]]]]; try done.
  cbn [forallb]. rewrite andb_true_r.
  destruct (Py.isdigit y1 && Py.isdigit y2 && Py.isdigit y3 && Py.isdigit y4) eqn:Hy;
    [|done].
  destruct (Datetime.lit "-" r1) as [r2|] eqn:Hr; [|done].
  apply lit_hyphen in Hr as ->. intros H%month_day_full.
  rewrite !andb_true_iff in Hy. destruct Hy as [[[-> ->] ->] ->]. exact H.
Qed.

(** A string of ASCII characters that [strptime] accepts has that form;
    so one that has not is rejected. *)
Lemma strptime_form p s d :
  Py.is_ascii s = true ->
  Datetime.strptime_Y_m_d p s = Py.Ok d ->
  is_Y_m_d s = true.
Proof.
  unfold Datetime.strptime_Y_m_d. intros ->.
  destruct (Datetime.regex_match s) as [[[[Y m] dd] rest]|] eqn:Hm; [|done].
  destruct (String.eqb_spec rest "") as [->|]; [|done]. intros _.
  by apply regex_match_form in Hm.
Qed.

Lemma strptime_rejects_other_forms p s :
  Py.is_ascii s = true ->
  is_Y_m_d s = false ->
  exists ex, Datetime.strptime_Y_m_d p s = Py.Raise ex.
Proof.
  intros Ha Hf. destruct (Datetime.strptime_Y_m_d p s) as [d|ex] eqn:Hs; [|eauto].
  apply strptime_form in Hs; congruence.
Qed.

(** The strict format is a case of the one [strptime] reads. *)
Lemma YYYY_MM_DD_is_Y_m_d_example :
  is_YYYY_MM_DD "2023-05-15" = true /\ is_Y_m_d "2023-05-15" = true
  /\ is_YYYY_MM_DD "2023-5-1" = false /\ is_Y_m_d "2023-5-1" = true
  /\ is_YYYY_MM_DD "2023-05- 5" = false /\ is_Y_m_d "2023-05- 5" = true
  /\ is_Y_m_d "15/05/2023" = false /\ is_Y_m_d "2023-13-01" = false.
Proof. repeat split. Qed.

(** C10, as stated, fails for both views.  The date 2023-5-1 is not in
    the format YYYY-MM-DD, yet [strptime] reads it as 1 May 2023:
    [download_cause_list] answers 200 and stores the list of that day, and
    [check_case_in_cause_list] answers 200 with the date 2023-05-01.  The
    empty date string is not in the format either, and is taken as no date
    at all: [download_cause_list] answers 200 for tomorrow's list.  And for
    the date 15/05/2023 without a case number [check_case_in_cause_list]
    answers 400 with the message 'Case number is required'. *)
Lemma malformed_date_not_always_rejected :
  is_YYYY_MM_DD "2023-5-1" = false
  /\ (download_cause_list sample_env [("date", "2023-5-1")] init_db).1
       = MkResponse (Attachment sample_pdf "cause_list_district_court_20230501.pdf"
                                "application/pdf") 200
  /\ check_case_in_cause_list sample_env
         [("case_number", "CR123/2023"); ("date", "2023-5-1")] init_db
       = (jsonify [ ("found", JBool true); ("date", JStr "2023-05-01");
                    ("court", JStr "district_court");
                    ("case_number", JStr "CR123/2023") ], init_db)
  /\ is_YYYY_MM_DD "" = false
  /\ (download_cause_list sample_env [("date", "")] init_db).1
       = MkResponse (Attachment sample_pdf "cause_list_district_court_20230516.pdf"
                                "application/pdf") 200
  /\ is_YYYY_MM_DD "15/05/2023" = false
  /\ check_case_in_cause_list sample_env [("date", "15/05/2023")] init_db
       = (jsonify_error "Case number is required" 400, init_db)
  /\ ~ rejects_malformed_dates download_cause_list
  /\ ~ rejects_malformed_dates check_case_in_cause_list.
Proof.
  repeat split.
  - intros H.
    specialize (H sample_env [("date", "2023-5-1")] init_db "2023-5-1" eq_refl eq_refl).
    vm_compute in H. discriminate H.
  - intros H.
    specialize (H sample_env [("case_number", "CR123/2023"); ("date", "2023-5-1")]
                  init_db "2023-5-1" eq_refl eq_refl).
    vm_compute in H. discriminate H.
Qed.

(** C10, amended. A supplied date string that is not empty and that
    [strptime] rejects for the format %Y-%m-%d makes [download_cause_list]
    answer 400 with the message 'Invalid date format. Use YYYY-MM-DD', and
    [check_case_in_cause_list] too when a case number is supplied; the
    store is as before: no row, no PDF file.  Among the strings of ASCII
    characters, [strptime] rejects every one that is not made of four
    digits, a hyphen, a month written 1..9, 01..09 or 10..12, a hyphen, and
    a day written 1..9, 01..09, 10..31 or as a space and 1..9. *)
Theorem malformed_date_rejected (e : env) (f : form) (st : store) s :
  form_get f "date" = Some s ->
  s <> "" ->
  (exists ex, Datetime.strptime_Y_m_d (platform e) s = Py.Raise ex)
  \/ (Py.is_ascii s = true /\ is_Y_m_d s = false) ->
  download_cause_list e f st
    = (jsonify_error "Invalid date format. Use YYYY-MM-DD" 400, st)
  /\ (forall case_number,
        form_get f "case_number" = Some case_number -> case_number <> "" ->
        check_case_in_cause_list e f st
          = (jsonify_error "Invalid date format. Use YYYY-MM-DD" 400, st)).
Proof.
  intros Hdate Hne Hrej.
  assert (Hparse : exists ex, Datetime.strptime_Y_m_d (platform e) s = Py.Raise ex).
  { destruct Hrej as [H|[Ha Hf]]; [done|]. by apply strptime_rejects_other_forms. }
  destruct Hparse as [ex Hparse].
  assert (Ht : target_date_of e (form_get f "date") = Py.Ok (inl invalid_date)).
  { apply (target_date_of_rejected e _ ex).
    - apply truthy_Some. eauto.
    - by rewrite Hdate. }
  split.
  - by apply (download_cause_list_invalid e st f invalid_date).
  - intros case_number Hcn Hcne.
    apply (check_case_invalid e st f invalid_date); [|done].
    apply truthy_Some. eauto.
Qed.

(** The date 15/05/2023 with a case number. *)
Lemma malformed_date_rejected_witness :
  let f := [("case_number", "CR123/2023"); ("date", "15/05/2023")] in
  download_cause_list sample_env f init_db
    = (jsonify_error "Invalid date format. Use YYYY-MM-DD" 400, init_db)
  /\ (forall case_number,
        form_get f "case_number" = Some case_number -> case_number <> "" ->
        check_case_in_cause_list sample_env f init_db
          = (jsonify_error "Invalid date format. Use YYYY-MM-DD" 400, init_db)).
Proof.
  apply (malformed_date_rejected sample_env
           [("case_number", "CR123/2023"); ("date", "15/05/2023")] init_db
           "15/05/2023").
  - reflexivity.
  - discriminate.
  - right. split; reflexivity.
Defined.

(* ===================================================================== *)
(** * The store only grows                                               *)
(* ===================================================================== *)

Lemma append_only_refl st : append_only st st.
Proof. by repeat split. Qed.

Lemma insert_prefix {R} (t : Sqlite.table R) (r : R) :
  Sqlite.rows t `prefix_of` Sqlite.rows (Sqlite.insert t r).1.
Proof. apply prefix_snoc. Qed.

Create HintDb store.
#[local] Hint Resolve append_only_refl insert_prefix : store.

Ltac append_only_tac :=
  unfold append_only, with_cause_list; cbn [snd queries case_details cause_lists];
  repeat split; first [ reflexivity | apply insert_prefix ].

Lemma index_read_only e f st : (index e f st).2 = st.
Proof. unfold index. by destruct (render_template e "index.html"). Qed.

Lemma search_case_append_only e f st : append_only st (search_case e f st).2.
Proof.
  search_case_cases e f st; cbn [snd]; auto with store.
  append_only_tac.
Qed.

Lemma download_cause_list_append_only e f st :
  append_only st (download_cause_list e f st).2.
Proof.
  download_cases e f st; auto with store; append_only_tac.
Qed.

Lemma check_case_append_only e f st :
  append_only st (check_case_in_cause_list e f st).2.
Proof. rewrite check_case_read_only. auto with store. Qed.

(** C2. Every request leaves the rows it found in the tables [queries],
    [case_details] and [cause_lists] unchanged and in place, whichever
    view answers it (the index page, a case lookup, a cause-list download,
    a membership check) and also when no view does: rows are only added
    at the end. *)
Theorem store_append_only (e : env) (st : store) :
  (forall ep f, append_only st (view_function ep e f st).2)
  /\ (forall rq, append_only st (app e rq st).2).
Proof.
  assert (Hview : forall ep f, append_only st (view_function ep e f st).2).
  { intros [] f; cbn [view_function].
    - rewrite index_read_only. apply append_only_refl.
    - apply search_case_append_only.
    - apply download_cause_list_append_only.
    - apply check_case_append_only. }
  split; [exact Hview|].
  intros rq. unfold app.
  destruct (dispatch (req_method rq) (req_path rq)); cbn [snd]; auto with store.
Qed.

(* ===================================================================== *)
(** * The case scrapers                                                  *)
(* ===================================================================== *)

Section CaseScrapers.

Context (e : env).

Lemma scrape_high_court_scraped case_type case_number year case_data raw :
  CourtScraper.scrape_high_court e case_type case_number year = Scraped case_data raw
  <-> exists hearing,
        session_get e "https://hcservices.ecourts.gov.in/hcservices/main.php" = Py.Ok raw
        /\ beautiful_soup e raw = Py.Ok tt
        /\ Datetime.add_days (today e) 7 = Py.Ok hearing
        /\ case_data =
             MkCase "Petitioner: John Doe vs Respondent: State of Example"
                    "2023-05-15" (Datetime.strftime_Y_m_d (platform e) hearing) "Pending" None.
Proof.
  unfold CourtScraper.scrape_high_court. cbn zeta. split.
  - destruct (session_get e _) as [text|?] eqn:Hget; cbn [Py.bind]; [|discriminate].
    destruct (beautiful_soup e text) as [[]|?] eqn:Hsoup; cbn [Py.bind];
      [|discriminate].
    destruct (Datetime.add_days (today e) 7) as [hearing|?] eqn:Hadd; cbn [Py.bind];
      [|discriminate].
    intros [= <- <-]. eauto.
  - intros (hearing & -> & Hsoup & Hadd & ->). cbn [Py.bind].
    by rewrite Hsoup, Hadd.
Qed.

Lemma scrape_district_court_scraped case_type case_number year case_data raw :
  CourtScraper.scrape_district_court e case_type case_number year = Scraped case_data raw
  <-> exists hearing,
        session_get e "https://services.ecourts.gov.in/ecourtindia_v6/" = Py.Ok raw
        /\ beautiful_soup e raw = Py.Ok tt
        /\ Datetime.add_days (today e) 5 = Py.Ok hearing
        /\ case_data =
             MkCase "Applicant: Jane Smith vs Opponent: ABC Corporation"
                    "2023-06-20" (Datetime.strftime_Y_m_d (platform e) hearing) "Hearing" None.
Proof.
  unfold CourtScraper.scrape_district_court. cbn zeta. split.
  - destruct (session_get e _) as [text|?] eqn:Hget; cbn [Py.bind]; [|discriminate].
    destruct (beautiful_soup e text) as [[]|?] eqn:Hsoup; cbn [Py.bind];
      [|discriminate].
    destruct (Datetime.add_days (today e) 5) as [hearing|?] eqn:Hadd; cbn [Py.bind];
      [|discriminate].
    intros [= <- <-]. eauto.
  - intros (hearing & -> & Hsoup & Hadd & ->). cbn [Py.bind].
    by rewrite Hsoup, Hadd.
Qed.

End CaseScrapers.

(** C6. The two case scrapers return the same result for any two triples
    (case_type, case_number, year) in the same environment.  When
    [scrape_high_court] succeeds its record is the fixed one: the parties
    John Doe and State of Example, filed 2023-05-15, next hearing seven
    days after today, status Pending, no judgment URL; the record of
    [scrape_district_court] has the parties Jane Smith and ABC Corporation,
    filed 2023-06-20, next hearing five days after today, status Hearing,
    no judgment URL. *)
Theorem scrapers_ignore_request (e : env)
    (case_type case_number : string) (year : Z)
    (case_type' case_number' : string) (year' : Z) :
  CourtScraper.scrape_high_court e case_type case_number year
    = CourtScraper.scrape_high_court e case_type' case_number' year'
  /\ CourtScraper.scrape_district_court e case_type case_number year
       = CourtScraper.scrape_district_court e case_type' case_number' year'
  /\ (forall case_data raw,
        CourtScraper.scrape_high_court e case_type case_number year
          = Scraped case_data raw ->
        exists hearing,
          Datetime.add_days (today e) 7 = Py.Ok hearing
          /\ case_data =
               MkCase "Petitioner: John Doe vs Respondent: State of Example"
                      "2023-05-15" (Datetime.strftime_Y_m_d (platform e) hearing) "Pending" None)
  /\ (forall case_data raw,
        CourtScraper.scrape_district_court e case_type case_number year
          = Scraped case_data raw ->
        exists hearing,
          Datetime.add_days (today e) 5 = Py.Ok hearing
          /\ case_data =
               MkCase "Applicant: Jane Smith vs Opponent: ABC Corporation"
                      "2023-06-20" (Datetime.strftime_Y_m_d (platform e) hearing) "Hearing" None).
Proof.
  repeat split.
  - intros case_data raw (hearing & _ & _ & H & ->)%scrape_high_court_scraped. eauto.
  - intros case_data raw (hearing & _ & _ & H & ->)%scrape_district_court_scraped. eauto.
Qed.

(** Two lookups on 15 May 2023. *)
Lemma scrapers_ignore_request_witness :
  CourtScraper.scrape_high_court sample_env "CR" "123" 2023
    = CourtScraper.scrape_high_court sample_env "WP" "77" 1999
  /\ CourtScraper.scrape_high_court sample_env "CR" "123" 2023
     = Scraped (MkCase "Petitioner: John Doe vs Respondent: State of Example"
                       "2023-05-15" "2023-05-22" "Pending" None)
               "<html></html>"
  /\ CourtScraper.scrape_district_court sample_env "CR" "123" 2023
     = Scraped (MkCase "Applicant: Jane Smith vs Opponent: ABC Corporation"
                       "2023-06-20" "2023-05-20" "Hearing" None)
               "<html></html>".
Proof.
  split; [|split; reflexivity].
  apply (scrapers_ignore_request sample_env "CR" "123" 2023 "WP" "77" 1999).
Defined.

(* ===================================================================== *)
(** * The routes                                                         *)
(* ===================================================================== *)

(** C7, as stated, fails: POST /search_case is answered by [search_case]
    and POST /download_cause_list by [download_cause_list], two different
    view functions on two different routes. *)
Lemma several_endpoints : ~ single_endpoint.
Proof.
  intros [ep H].
  pose proof (H POST "/search_case" ep_search_case eq_refl) as H1.
  pose proof (H POST "/download_cause_list" ep_download_cause_list eq_refl) as H2.
  congruence.
Qed.

(** The request lines that reach a view function of main.py: GET and
    HEAD on /, and POST on the other three paths. *)
Lemma routes_reach_views m path ep :
  dispatch m path = to_view ep <-> (m, path, ep) ∈ handled.
Proof.
  unfold handled. rewrite !elem_of_cons, elem_of_nil.
  unfold dispatch, declared_rules. cbn [find rule_path].
  destruct (String.eqb_spec "/" path) as [<-|H1].
  { destruct m; cbn; intuition congruence. }
  destruct (String.eqb_spec "/search_case" path) as [<-|H2].
  { destruct m; cbn; intuition congruence. }
  destruct (String.eqb_spec "/download_cause_list" path) as [<-|H3].
  { destruct m; cbn; intuition congruence. }
  destruct (String.eqb_spec "/check_case_in_cause_list" path) as [<-|H4].
  { destruct m; cbn; intuition congruence. }
  intuition congruence.
Qed.

(** C7, amended. The request handling consists of several endpoints, at
    least the four that main.py declares: GET / reaches [index], POST
    /search_case reaches [search_case], POST /download_cause_list reaches
    [download_cause_list] and POST /check_case_in_cause_list reaches
    [check_case_in_cause_list]; the four endpoints are different, and no
    two of them have the same view function. *)
Theorem four_routes :
  dispatch GET "/" = to_view ep_index
  /\ dispatch POST "/search_case" = to_view ep_search_case
  /\ dispatch POST "/download_cause_list" = to_view ep_download_cause_list
  /\ dispatch POST "/check_case_in_cause_list" = to_view ep_check_case_in_cause_list
  /\ NoDup [ep_index; ep_search_case; ep_download_cause_list;
            ep_check_case_in_cause_list]
  /\ (forall ep ep', view_function ep = view_function ep' -> ep = ep').
Proof.
  repeat split.
  - repeat constructor; rewrite ?elem_of_cons, ?elem_of_nil; intuition congruence.
  - intros ep ep' H.
    pose proof (f_equal (fun v : view => (v sample_env [] init_db).1) H) as H'.
    destruct ep, ep'; try reflexivity; vm_compute in H'; discriminate H'.
Qed.

(* ===================================================================== *)
(** * Dates that go out and come back                                    *)
(* ===================================================================== *)

Lemma isdigit_chr_digit k : 0 <= k <= 9 -> Py.isdigit (Py.chr (48 + k)) = true.
Proof. intros H. unfold Py.isdigit. rewrite code_chr by lia. lia. Qed.

Lemma digit_value_chr k : 0 <= k <= 9 -> Py.digit_value (Py.chr (48 + k)) = k.
Proof. intros H. unfold Py.digit_value. rewrite code_chr by lia. lia. Qed.

Lemma scan_digits_digit k s prev acc n :
  0 <= k <= 9 ->
  Py.scan_digits (String (Py.chr (48 + k)) s) prev acc n
  = Py.scan_digits s false (acc * 10 + k) (n + 1).
Proof.
  intros H. cbn [Py.scan_digits]. by rewrite isdigit_chr_digit, digit_value_chr.
Qed.

Ltac digit_cases k H :=
  assert (k = 0 \/ k = 1 \/ k = 2 \/ k = 3 \/ k = 4 \/ k = 5 \/ k = 6 \/ k = 7
          \/ k = 8 \/ k = 9) as H by lia;
  repeat destruct H as [H|H]; subst k.

(** [int] on a string that starts with a digit: no space, no sign, no
    leading underscore. *)
Lemma int_leading_digit a s :
  0 <= a <= 9 ->
  Py.long_from_string (String (Py.chr (48 + a)) s)
  = match Py.scan_digits s false a 1 with
    | Some (v, n, rest) =>
        if n =? 0 then Py.Raise Py.int_literal_error
        else if negb (String.eqb (Py.skip_spaces rest) "")
             then Py.Raise Py.int_literal_error
             else if Py.max_str_digits <? n
                  then Py.Raise (Py.MkExn Py.ValueError
                         "Exceeds the limit (4300 digits) for integer string conversion")
                  else Py.Ok (1 * v)
    | None => Py.Raise Py.int_literal_error
    end.
Proof. intros Ha. digit_cases a Ha'; reflexivity. Qed.

Lemma int_zpad_2 n : 0 <= n <= 99 -> Py.long_from_string (Py.zpad 2 n) = Py.Ok n.
Proof.
  intros Hn. rewrite zpad_2.
  pose proof (Z.mod_pos_bound n 10 ltac:(lia)).
  rewrite int_leading_digit by (Z.div_mod_to_equations; lia).
  rewrite scan_digits_digit by lia. cbn. f_equal.
  Z.div_mod_to_equations; lia.
Qed.

Lemma int_zpad_4 y : 0 <= y <= 9999 -> Py.long_from_string (Py.zpad 4 y) = Py.Ok y.
Proof.
  intros Hy. rewrite zpad_4.
  pose proof (Z.mod_pos_bound (y / 10 / 10) 10 ltac:(lia)).
  pose proof (Z.mod_pos_bound (y / 10) 10 ltac:(lia)).
  pose proof (Z.mod_pos_bound y 10 ltac:(lia)).
  rewrite int_leading_digit by (Z.div_mod_to_equations; lia).
  rewrite !scan_digits_digit by lia. cbn. f_equal.
  Z.div_mod_to_equations; lia.
Qed.

Lemma match_Y_zpad y tail :
  Datetime.match_Y (Py.zpad 4 y +:+ tail) = Some (Py.zpad 4 y, tail).
Proof.
  rewrite zpad_4. repeat first [rewrite append_cons | rewrite append_nil].
  cbn [Datetime.match_Y]. by rewrite !isdigit_chr.
Qed.

Ltac small_cases n :=
  destruct n as [|n|n]; [lia| |lia];
  repeat (destruct n as [n|n|]; try lia).

(** The regular expression on a year group, a hyphen, and a month and a
    day written with two digits. *)
Lemma regex_match_canonical Y m d :
  (forall tail, Datetime.match_Y (Y +:+ tail) = Some (Y, tail)) ->
  1 <= m <= 12 -> 1 <= d <= 31 ->
  Datetime.regex_match (Y +:+ "-" +:+ Py.zpad 2 m +:+ "-" +:+ Py.zpad 2 d)
  = Some (Y, Py.zpad 2 m, Py.zpad 2 d, "").
Proof.
  intros HY Hm Hd. unfold Datetime.regex_match. rewrite HY.
  small_cases m; small_cases d; vm_compute; reflexivity.
Qed.

Lemma make_date_valid y m d d' :
  Datetime.make_date y m d = Py.Ok d' ->
  d' = Datetime.MkDate y m d
  /\ 1 <= y <= 9999 /\ 1 <= m <= 12 /\ 1 <= d <= Datetime.days_in_month y m.
Proof.
  unfold Datetime.make_date, Datetime.MINYEAR, Datetime.MAXYEAR.
  repeat case_match; intros [= <-]; try discriminate. split; [done|]. lia.
Qed.

Lemma days_in_month_le y m : Datetime.days_in_month y m <= 31.
Proof.
  unfold Datetime.days_in_month. case_match; [lia|].
  unfold Datetime.at_index, Datetime.DAYS_IN_MONTH.
  destruct (Z.to_nat m) as [|[|[|[|[|[|[|[|[|[|[|[|[|[|]]]]]]]]]]]]]]; cbn; lia.
Qed.

Lemma is_ascii_app a b : Py.is_ascii (a +:+ b) = Py.is_ascii a && Py.is_ascii b.
Proof.
  induction a as [|c a IH]; [done|].
  rewrite append_cons. cbn [Py.is_ascii]. by rewrite IH, andb_assoc.
Qed.

Lemma is_ascii_zpad w n : Py.is_ascii (Py.zpad w n) = true.
Proof.
  revert n. induction w as [|w IH]; intros n; [done|].
  cbn [Py.zpad]. rewrite is_ascii_app, IH. cbn [Py.is_ascii].
  pose proof (Z.mod_pos_bound n 10 ltac:(lia)) as Hn.
  rewrite code_chr by lia. lia.
Qed.

(** What [strftime] writes is a string of ASCII characters. *)
Lemma is_ascii_strftime_Y_m_d p d : Py.is_ascii (Datetime.strftime_Y_m_d p d) = true.
Proof.
  unfold Datetime.strftime_Y_m_d, Datetime.strftime_Y.
  repeat case_match; by rewrite !is_ascii_app, !is_ascii_zpad.
Qed.

Lemma strptime_of_strftime p d :
  valid_date d -> four_digit_year p d ->
  Datetime.strptime_Y_m_d p (Datetime.strftime_Y_m_d p d) = Py.Ok d.
Proof.
  intros Hv H4. pose proof Hv as Hv'.
  apply make_date_valid in Hv' as (_ & Hy & Hm & Hd).
  pose proof (days_in_month_le (Datetime.year d) (Datetime.month d)) as Hle.
  unfold Datetime.strptime_Y_m_d. rewrite is_ascii_strftime_Y_m_d.
  unfold Datetime.strftime_Y_m_d. rewrite (strftime_Y_four _ _ H4).
  rewrite regex_match_canonical by (auto using match_Y_zpad || lia).
  cbn [negb String.eqb].
  rewrite int_zpad_4, !int_zpad_2 by lia. cbn [Py.bind]. exact Hv.
Qed.

(** A year written with fewer than four digits is not read back. *)
Lemma strptime_of_short_year p d :
  Py.pads_year p = false -> 0 <= Datetime.year d < 1000 ->
  Datetime.strptime_Y_m_d p (Datetime.strftime_Y_m_d p d)
  = Py.Raise Datetime.does_not_match.
Proof.
  intros Hp Hy. unfold Datetime.strptime_Y_m_d. rewrite is_ascii_strftime_Y_m_d.
  assert (Hm : Datetime.regex_match (Datetime.strftime_Y_m_d p d) = None);
    [|by rewrite Hm].
  unfold Datetime.regex_match, Datetime.strftime_Y_m_d, Datetime.strftime_Y.
  rewrite Hp. destruct (Z.leb_spec 1000 (Datetime.year d)); [lia|]. cbn [orb].
  rewrite zpad_2.
  destruct (100 <=? Datetime.year d); [|destruct (10 <=? Datetime.year d)];
    cbn [Py.zpad];
    repeat first [rewrite append_cons | rewrite append_nil];
    cbn [Datetime.match_Y];
    change (Py.isdigit "-") with false; by rewrite ?andb_false_r.
Qed.

(** What [strptime] accepts is a date of the calendar. *)
Lemma strptime_valid p s d :
  Datetime.strptime_Y_m_d p s = Py.Ok d -> valid_date d.
Proof.
  unfold Datetime.strptime_Y_m_d, valid_date.
  assert (Hmake : forall y mo dy,
    Datetime.make_date y mo dy = Py.Ok d ->
    Datetime.make_date (Datetime.year d) (Datetime.month d) (Datetime.day d) = Py.Ok d).
  { intros y mo dy H. pose proof H as (-> & _)%make_date_valid. exact H. }
  destruct (Py.is_ascii s).
  - destruct (Datetime.regex_match s) as [[[[Y m] dd] rest]|]; [|discriminate].
    destruct (negb (String.eqb rest "")); [discriminate|].
    destruct (Py.long_from_string Y) as [y|]; cbn [Py.bind]; [|discriminate].
    destruct (Py.long_from_string m) as [mo|]; cbn [Py.bind]; [|discriminate].
    destruct (Py.long_from_string dd) as [dy|]; cbn [Py.bind]; [|discriminate].
    apply Hmake.
  - destruct (Py.unicode_strptime p s) as [[[y mo] dy]|]; [|discriminate].
    apply Hmake.
Qed.

Lemma append_not_empty a b : b <> "" -> a +:+ b <> "".
Proof. by destruct a. Qed.

Lemma strftime_Y_m_d_truthy p d :
  Py.truthy (Some (Datetime.strftime_Y_m_d p d)) = true.
Proof.
  apply truthy_Some. eexists. split; [done|].
  unfold Datetime.strftime_Y_m_d. by apply append_not_empty.
Qed.

(** X1. Formatting a date of the calendar with %Y-%m-%d and parsing the
    result with the same format gives the date back when [strftime] writes
    the year with four digits: always from the year 1000 on, and for
    earlier years where the C library pads %Y.  Where it does not, the
    text of a date before the year 1000 is rejected by [strptime]. *)
Theorem strftime_strptime_round_trip (p : Py.platform) (d : Datetime.date) :
  valid_date d ->
  (four_digit_year p d ->
   Datetime.strptime_Y_m_d p (Datetime.strftime_Y_m_d p d) = Py.Ok d)
  /\ (~ four_digit_year p d ->
      exists msg,
        Datetime.strptime_Y_m_d p (Datetime.strftime_Y_m_d p d)
        = Py.Raise (Py.MkExn Py.ValueError msg)).
Proof.
  intros Hv. split; [by apply strptime_of_strftime|].
  intros Hn. apply make_date_valid in Hv as (_ & Hy & _).
  unfold four_digit_year in Hn. eexists. apply strptime_of_short_year.
  - destruct (Py.pads_year p); tauto.
  - lia.
Qed.

Lemma strftime_strptime_round_trip_witness :
  valid_date (Datetime.MkDate 2024 2 29)
  /\ Datetime.strptime_Y_m_d glibc "2024-02-29" = Py.Ok (Datetime.MkDate 2024 2 29)
  /\ valid_date (Datetime.MkDate 5 1 1)
  /\ exists msg,
       Datetime.strptime_Y_m_d glibc "5-01-01" = Py.Raise (Py.MkExn Py.ValueError msg).
Proof.
  split; [reflexivity|]. split.
  - apply (strftime_strptime_round_trip glibc (Datetime.MkDate 2024 2 29));
      [reflexivity|]. right. cbn. lia.
  - split; [reflexivity|].
    apply (strftime_strptime_round_trip glibc (Datetime.MkDate 5 1 1));
      [reflexivity|]. intros [H|H]; [discriminate H|cbn in H; lia].
Defined.

(** The cause-list views read the form only through the first values of
    their fields. *)
Lemma download_cause_list_ext e st (f f' : form) :
  form_get f "court_type" = form_get f' "court_type" ->
  target_date_of e (form_get f "date") = target_date_of e (form_get f' "date") ->
  download_cause_list e f st = download_cause_list e f' st.
Proof.
  intros Hc Ht. unfold download_cause_list, form_get_default. by rewrite Hc, Ht.
Qed.

Lemma check_case_ext e st (f f' : form) :
  form_get f "case_number" = form_get f' "case_number" ->
  form_get f "court_type" = form_get f' "court_type" ->
  target_date_of e (form_get f "date") = target_date_of e (form_get f' "date") ->
  check_case_in_cause_list e f st = check_case_in_cause_list e f' st.
Proof.
  intros Hn Hc Ht. unfold check_case_in_cause_list, form_get_default.
  by rewrite Hn, Hc, Ht.
Qed.

(** X2. A request whose date field is accepted as the date [d], of a year
    that [strftime] writes with four digits, gets the same answer, with
    the same effect on the store, when it is submitted again with [d]
    written by [strftime] as YYYY-MM-DD, the form in which
    [check_case_in_cause_list] echoes it and [download_cause_list] stores
    it: 2023-5-1 and 2023-05-01 are the same request. *)
Theorem echoed_date_is_canonical (e : env) (f : form) (st : store) s d :
  form_get f "date" = Some s ->
  s <> "" ->
  Datetime.strptime_Y_m_d (platform e) s = Py.Ok d ->
  four_digit_year (platform e) d ->
  check_case_in_cause_list e
      (with_date (Datetime.strftime_Y_m_d (platform e) d) f) st
    = check_case_in_cause_list e f st
  /\ download_cause_list e (with_date (Datetime.strftime_Y_m_d (platform e) d) f) st
     = download_cause_list e f st.
Proof.
  intros Hdate Hne Hparse H4.
  assert (Ht : target_date_of e
                 (form_get (with_date (Datetime.strftime_Y_m_d (platform e) d) f) "date")
               = target_date_of e (form_get f "date")).
  { rewrite Hdate. cbn [with_date form_get String.eqb Ascii.eqb Bool.eqb].
    rewrite (target_date_of_parsed e (Some s) d).
    - apply target_date_of_parsed; [apply strftime_Y_m_d_truthy|].
      apply strptime_of_strftime; [|done]. by apply strptime_valid in Hparse.
    - apply truthy_Some. eauto.
    - done. }
  split.
  - by apply check_case_ext.
  - by apply download_cause_list_ext.
Qed.

Lemma echoed_date_is_canonical_witness :
  let f := [("case_number", "CR123/2023"); ("date", "2023-5-1")] in
  check_case_in_cause_list sample_env (with_date "2023-05-01" f) init_db
    = check_case_in_cause_list sample_env f init_db
  /\ download_cause_list sample_env (with_date "2023-05-01" f) init_db
     = download_cause_list sample_env f init_db.
Proof.
  apply (echoed_date_is_canonical sample_env
           [("case_number", "CR123/2023"); ("date", "2023-5-1")] init_db
           "2023-5-1" (Datetime.MkDate 2023 5 1)).
  - reflexivity.
  - discriminate.
  - reflexivity.
  - right. cbn. lia.
Defined.

(** X3. An empty date field is the same as no date field: two requests
    that differ only in that get the same answer from both cause-list
    views, with the same effect on the store. *)
Theorem empty_date_is_absent (e : env) (f f' : form) (st : store) :
  form_get f "date" = Some "" ->
  form_get f' "date" = None ->
  form_get f "court_type" = form_get f' "court_type" ->
  form_get f "case_number" = form_get f' "case_number" ->
  download_cause_list e f st = download_cause_list e f' st
  /\ check_case_in_cause_list e f st = check_case_in_cause_list e f' st.
Proof.
  intros Hempty Hnone Hc Hn.
  assert (Ht : target_date_of e (form_get f "date") = target_date_of e (form_get f' "date")).
  { by rewrite Hempty, Hnone. }
  split.
  - by apply download_cause_list_ext.
  - by apply check_case_ext.
Qed.

Lemma empty_date_is_absent_witness :
  download_cause_list sample_env [("court_type", "high_court"); ("date", "")] init_db
    = download_cause_list sample_env [("court_type", "high_court")] init_db
  /\ check_case_in_cause_list sample_env [("court_type", "high_court"); ("date", "")] init_db
     = check_case_in_cause_list sample_env [("court_type", "high_court")] init_db.
Proof.
  apply (empty_date_is_absent sample_env
           [("court_type", "high_court"); ("date", "")]
           [("court_type", "high_court")] init_db); reflexivity.
Defined.

(** X4. For [search_case] every court type other than high_court is a
    district court: two lookups with the same case type, case number and
    year, neither for high_court, get the same answer, whether the court
    type is district_court, left out, or anything else. *)
Theorem other_courts_are_district (e : env) (f f' : form) (st : store) :
  form_get f "case_type" = form_get f' "case_type" ->
  form_get f "case_number" = form_get f' "case_number" ->
  form_get f "year" = form_get f' "year" ->
  form_get_default f "court_type" "district_court" <> "high_court" ->
  form_get_default f' "court_type" "district_court" <> "high_court" ->
  (search_case e f st).1 = (search_case e f' st).1.
Proof.
  intros Ht Hn Hy Hc Hc'. unfold search_case. rewrite Ht, Hn, Hy.
  apply String.eqb_neq in Hc, Hc'. rewrite Hc, Hc'.
  destruct (negb _); [done|].
  destruct (Py.int _) as [y|[[] msg]]; try done.
  destruct (CourtScraper.scrape_district_court _ _ _ _); [|done].
  unfold Sqlite.bind_int. by destruct (_ && _).
Qed.

Lemma other_courts_are_district_witness :
  (search_case sample_env
     [("case_type", "CR"); ("case_number", "1"); ("year", "2023");
      ("court_type", "supreme_court")] init_db).1
  = (search_case sample_env
       [("case_type", "CR"); ("case_number", "1"); ("year", "2023")] init_db).1.
Proof.
  apply (other_courts_are_district sample_env
           [("case_type", "CR"); ("case_number", "1"); ("year", "2023");
            ("court_type", "supreme_court")]
           [("case_type", "CR"); ("case_number", "1"); ("year", "2023")] init_db);
    (reflexivity || discriminate).
Defined.

(* ===================================================================== *)
(** * What the views do to the store                                     *)
(* ===================================================================== *)

Lemma store_eta st :
  MkStore (queries st) (case_details st) (cause_lists st) (files st) = st.
Proof. by destruct st. Qed.

(** [search_case] as an answer and two table updates that the request and
    the environment fix: the answer does not depend on the store, the new
    [queries] depends on the old [queries], the new [case_details] on the
    old [queries] (for the query_id) and the old [case_details]. *)
Lemma search_case_shape e f :
  exists resp F G,
    (forall st, search_case e f st
                = (resp, MkStore (F (queries st)) (G (queries st) (case_details st))
                                 (cause_lists st) (files st)))
    /\ (status resp <> 200 -> forall q c, F q = q /\ G q c = c).
Proof.
  destruct (lookup_fields_present f) eqn:Hp.
  2: { exists (jsonify_error "All fields are required" 400), id, (fun _ c => c).
       split; [|by auto]. intros st.
       rewrite (search_case_missing e f st Hp). by destruct st. }
  destruct (Py.int (platform e) (str_of (form_get f "year"))) as [y|ex] eqn:Hy.
  2: { exists (jsonify_error "Year must be a number" 400), id, (fun _ c => c).
       split; [|by auto]. intros st.
       rewrite (search_case_bad_year e f st _ Hp Hy). by destruct st. }
  destruct (scrape e (court_type_of f) (str_of (form_get f "case_type"))
              (str_of (form_get f "case_number")) y) as [case_data raw|error] eqn:Hs.
  2: { exists (jsonify_error error 500), id, (fun _ c => c).
       split; [|by auto]. intros st.
       rewrite (search_case_scrape_error e f st _ _ Hp Hy Hs). by destruct st. }
  destruct (in_int64 y) eqn:Hr.
  - exists (jsonify_case case_data),
           (fun q => (Sqlite.insert q (new_query e f y raw)).1),
           (fun q c => (Sqlite.insert c (new_case_detail (Sqlite.next_rowid q) case_data)).1).
    split; [|by intros []]. intros st.
    by rewrite (search_case_stored e f st _ _ _ Hp Hy Hs Hr).
  - exists (MkResponse ErrorPage 500), id, (fun _ c => c).
    split; [|by auto]. intros st.
    rewrite (search_case_overflow e f st _ _ _ Hp Hy Hs Hr). by destruct st.
Qed.

(** [download_cause_list] likewise, on [cause_lists] and the files. *)
Lemma download_cause_list_shape e f :
  exists resp H K,
    forall st, download_cause_list e f st
               = (resp, MkStore (queries st) (case_details st)
                                (H (cause_lists st)) (K (files st))).
Proof.
  destruct (target_date_of e (form_get f "date")) as [[r|d]|ex] eqn:Ht.
  - exists invalid_date, id, id. intros st.
    rewrite (download_cause_list_invalid e st f _ Ht). by destruct st.
  - destruct (scraper_download_total e (court_type_of f) d)
      as [[data pdf raw|error] Hd].
    + destruct (has_nul (pdf_path_of (platform e) (court_type_of f) d)) eqn:Hn.
      * exists (MkResponse ErrorPage 500), id, id. intros st.
        rewrite (download_cause_list_dated e st f _ Ht).
        rewrite (download_on_bad_path e st _ _ _ _ _ Hd Hn). by destruct st.
      * destruct (os_write e (pdf_path_of (platform e) (court_type_of f) d))
          as [u|ex] eqn:Hw.
        -- exists (download_answer e (court_type_of f) d pdf),
                  (fun c => (Sqlite.insert c
                               (new_cause_list_row e (court_type_of f) d raw)).1),
                  (fun fs => <[pdf_path_of (platform e) (court_type_of f) d := pdf]> fs).
           intros st. rewrite (download_cause_list_dated e st f _ Ht).
           by rewrite (download_on_stored e st _ _ _ _ _ _ Hd Hn Hw).
        -- exists (MkResponse ErrorPage 500), id, id. intros st.
           rewrite (download_cause_list_dated e st f _ Ht).
           rewrite (download_on_refused e st _ _ _ _ _ _ Hd Hn Hw). by destruct st.
    + exists (jsonify_error error 500), id, id. intros st.
      rewrite (download_cause_list_dated e st f _ Ht).
      rewrite (download_on_error e st _ _ _ Hd). by destruct st.
  - exists (MkResponse ErrorPage 500), id, id. intros st.
    rewrite (download_cause_list_raised e st f _ Ht). by destruct st.
Qed.

(** A download that is not answered with status 200 has changed nothing,
    or it wrote the file and inserted the row before [send_file] raised. *)
Lemma download_cause_list_failed e f st :
  status (download_cause_list e f st).1 <> 200 ->
  (download_cause_list e f st).2 = st
  \/ exists d pdf raw ex,
       target_date_of e (form_get f "date") = Py.Ok (inr d)
       /\ send_file e (pdf_filename_of (platform e) (court_type_of f) d) = Py.Raise ex
       /\ download_cause_list e f st
          = (MkResponse ErrorPage 500, with_cause_list e (court_type_of f) d pdf raw st).
Proof.
  download_cases e f st; intros Hne; try (by left).
  right. exists d, pdf, raw, ex. done.
Qed.

(** X5. A request that is not answered with status 200 changes nothing:
    the three tables and the files are as the request found them.  The one
    exception is a cause-list download whose download name [send_file]
    refuses: it is answered with status 500 after its PDF is written and
    its row inserted. *)
Theorem failed_request_changes_nothing (e : env) (rq : request) (st : store) :
  status (app e rq st).1 <> 200 ->
  (app e rq st).2 = st
  \/ exists d pdf raw ex,
       dispatch (req_method rq) (req_path rq) = to_view ep_download_cause_list
       /\ target_date_of e (form_get (req_form rq) "date") = Py.Ok (inr d)
       /\ send_file e (pdf_filename_of (platform e) (court_type_of (req_form rq)) d)
          = Py.Raise ex
       /\ app e rq st
          = (MkResponse ErrorPage 500,
             with_cause_list e (court_type_of (req_form rq)) d pdf raw st).
Proof.
  unfold app.
  destruct (dispatch (req_method rq) (req_path rq)) as [[]|allow|] eqn:Hd;
    cbn [view_function]; try (by left).
  - intros _. left. apply index_read_only.
  - destruct (search_case_shape e (req_form rq)) as (resp & F & G & Hv & Hf).
    rewrite Hv. cbn [fst snd]. intros Hne. left.
    destruct (Hf Hne (queries st) (case_details st)) as [-> ->]. apply store_eta.
  - intros [H|(d & pdf & raw & ex & Ht & Hs & Hv)]%download_cause_list_failed;
      [by left|].
    right. by exists d, pdf, raw, ex.
  - intros _. left. apply check_case_read_only.
Qed.

(** A lookup with a year that is no number; and a download for a court
    type with a line feed, which werkzeug refuses in a header. *)
Lemma failed_request_changes_nothing_witness :
  let rq := MkRequest POST "/search_case" [("case_type", "CR"); ("year", "MMXXIII")] in
  let rq' := MkRequest POST "/download_cause_list"
               [("court_type", CourtScraper.nl); ("date", "2024-02-29")] in
  (status (app sample_env rq init_db).1 <> 200
   /\ ((app sample_env rq init_db).2 = init_db
       \/ exists d pdf raw ex,
            dispatch (req_method rq) (req_path rq) = to_view ep_download_cause_list
            /\ target_date_of sample_env (form_get (req_form rq) "date") = Py.Ok (inr d)
            /\ send_file sample_env
                 (pdf_filename_of glibc (court_type_of (req_form rq)) d) = Py.Raise ex
            /\ app sample_env rq init_db
               = (MkResponse ErrorPage 500,
                  with_cause_list sample_env (court_type_of (req_form rq)) d pdf raw
                    init_db)))
  /\ app sample_env rq init_db
     = (jsonify_error "All fields are required" 400, init_db)
  /\ app sample_env rq' init_db
     = (MkResponse ErrorPage 500,
        with_cause_list sample_env CourtScraper.nl (Datetime.MkDate 2024 2 29)
          sample_pdf "<html></html>" init_db).
Proof.
  cbn zeta. split; [|split; reflexivity]. split; [discriminate|].
  apply (failed_request_changes_nothing sample_env
           (MkRequest POST "/search_case" [("case_type", "CR"); ("year", "MMXXIII")])
           init_db).
  discriminate.
Defined.

(** X8. A case lookup and a cause-list download commute: in either order
    they leave the same store, and each gets the same answer. *)
Theorem lookup_and_download_commute (e1 e2 : env) (f1 f2 : form) (st : store) :
  (download_cause_list e2 f2 (search_case e1 f1 st).2).2
    = (search_case e1 f1 (download_cause_list e2 f2 st).2).2
  /\ (download_cause_list e2 f2 (search_case e1 f1 st).2).1
     = (download_cause_list e2 f2 st).1
  /\ (search_case e1 f1 (download_cause_list e2 f2 st).2).1
     = (search_case e1 f1 st).1.
Proof.
  destruct (search_case_shape e1 f1) as (r1 & F & G & H1 & _).
  destruct (download_cause_list_shape e2 f2) as (r2 & H & K & H2).
  repeat first [rewrite H1 | rewrite H2]; cbn [fst snd queries case_details cause_lists files].
  done.
Qed.

(** X9. Each view writes only what is its own: [search_case] leaves
    [cause_lists] and the files as they are, [download_cause_list] leaves
    [queries] and [case_details] as they are, and [index] and
    [check_case_in_cause_list] leave the whole store as it is. *)
Theorem views_write_their_own_tables (e : env) (f : form) (st : store) :
  (cause_lists (search_case e f st).2 = cause_lists st
   /\ files (search_case e f st).2 = files st)
  /\ (queries (download_cause_list e f st).2 = queries st
      /\ case_details (download_cause_list e f st).2 = case_details st)
  /\ (check_case_in_cause_list e f st).2 = st
  /\ (index e f st).2 = st.
Proof.
  destruct (search_case_shape e f) as (r1 & F & G & H1 & _).
  destruct (download_cause_list_shape e f) as (r2 & H & K & H2).
  by rewrite H1, H2, check_case_read_only, index_read_only.
Qed.

(** X10. Only POST requests write: a request with any other method leaves
    the store as it is, whatever its path and form. *)
Theorem only_post_writes (e : env) (rq : request) (st : store) :
  req_method rq <> POST -> (app e rq st).2 = st.
Proof.
  intros Hm. unfold app.
  destruct (dispatch (req_method rq) (req_path rq)) as [ep|allow|] eqn:Hd;
    [|done|done].
  apply routes_reach_views in Hd. unfold handled in Hd.
  rewrite !elem_of_cons, elem_of_nil in Hd.
  destruct Hd as [Hd|[Hd|[Hd|[Hd|[Hd|[]]]]]]; injection Hd as Hmeth Hpath ->;
    first [ apply index_read_only | congruence ].
Qed.

Lemma only_post_writes_witness :
  (app sample_env (MkRequest GET "/search_case" sample_lookup) init_db).2 = init_db.
Proof.
  apply (only_post_writes sample_env (MkRequest GET "/search_case" sample_lookup) init_db).
  discriminate.
Defined.

(* ===================================================================== *)
(** * Rowids and the foreign key                                         *)
(* ===================================================================== *)

Lemma rowids_insert {R} (t : Sqlite.table R) (r : R) :
  rowids (Sqlite.insert t r).1 = rowids t ++ [Sqlite.next_rowid t].
Proof. unfold rowids. cbn. by rewrite fmap_app. Qed.

Lemma rowid_fresh {R} (t : Sqlite.table R) i :
  i ∈ rowids t -> i < Sqlite.next_rowid t.
Proof.
  unfold rowids. intros ([i' r] & -> & Hin)%list_elem_of_fmap.
  by apply next_rowid_fresh in Hin.
Qed.

Lemma NoDup_rowids_insert {R} (t : Sqlite.table R) (r : R) :
  NoDup (rowids t) -> NoDup (rowids (Sqlite.insert t r).1).
Proof.
  intros Hnd. rewrite rowids_insert. apply NoDup_app. split; [done|]. split.
  - intros i Hin%rowid_fresh ->%list_elem_of_singleton. lia.
  - apply NoDup_singleton.
Qed.

Lemma max_rowid_le {R} (l : list (Z * R)) b :
  0 <= b -> (forall i, i ∈ l.*1 -> i <= b) -> Sqlite.max_rowid l <= b.
Proof.
  intros Hb. induction l as [|[j r] l IH]; intros Hall; cbn; [done|].
  apply Z.max_lub.
  - apply Hall. cbn. apply list_elem_of_here.
  - apply IH. intros i Hin. apply Hall. cbn. by apply list_elem_of_further.
Qed.

Lemma numbered_next {R} (t : Sqlite.table R) :
  numbered t -> Sqlite.next_rowid t = Z.of_nat (length (Sqlite.rows t)) + 1.
Proof.
  intros [Hids Hseq]. unfold Sqlite.next_rowid. rewrite Hseq.
  assert (Sqlite.max_rowid (Sqlite.rows t) <= Z.of_nat (length (Sqlite.rows t))).
  { apply max_rowid_le; [lia|]. intros i Hin. fold (rowids t) in Hin.
    rewrite Hids in Hin. apply elem_of_seqZ in Hin. lia. }
  lia.
Qed.

Lemma numbered_insert {R} (t : Sqlite.table R) (r : R) :
  numbered t -> numbered (Sqlite.insert t r).1.
Proof.
  intros Hn. pose proof (numbered_next t Hn) as Hnext. destruct Hn as [Hids Hseq].
  split.
  - rewrite rowids_insert, Hids, Hnext. cbn [Sqlite.insert fst Sqlite.rows].
    rewrite length_app. cbn [length]. rewrite Nat.add_1_r, seqZ_S. f_equal. f_equal. lia.
  - cbn [Sqlite.insert fst Sqlite.rows Sqlite.sequence].
    rewrite Hnext, length_app. cbn [length]. lia.
Qed.

Lemma numbered_empty {R} : numbered (@Sqlite.empty R).
Proof. split; reflexivity. Qed.

Lemma query_ids_insert st q cd :
  query_ids (MkStore q (Sqlite.insert (case_details st) cd).1 (cause_lists st) (files st))
  = query_ids st ++ [cd_query_id cd].
Proof. unfold query_ids. cbn. by rewrite map_app. Qed.

Lemma search_case_numbered e f st :
  numbered_store st -> numbered_store (search_case e f st).2.
Proof.
  intros (Hq & Hc & Hl & Hfk).
  search_case_cases e f st; cbn [snd]; try done.
  repeat split; cbn [queries case_details cause_lists].
  - by apply numbered_insert.
  - by apply numbered_insert.
  - by apply numbered_insert.
  - by apply numbered_insert.
  - apply Hl.
  - apply Hl.
  - by rewrite query_ids_insert, rowids_insert, Hfk.
Qed.

Lemma download_cause_list_numbered e f st :
  numbered_store st -> numbered_store (download_cause_list e f st).2.
Proof.
  intros (Hq & Hc & Hl & Hfk).
  download_cases e f st; try done.
  all: split; [done|]; split; [done|]; split; [by apply numbered_insert|done].
Qed.

Lemma app_numbered e rq st : numbered_store st -> numbered_store (app e rq st).2.
Proof.
  intros Hn. unfold app. destruct (dispatch _ _) as [[]|?|]; cbn [view_function snd];
    try done.
  - by rewrite index_read_only.
  - by apply search_case_numbered.
  - by apply download_cause_list_numbered.
  - by rewrite check_case_read_only.
Qed.

Lemma serve_invariant (P : store -> Prop) :
  (forall e rq st, P st -> P (app e rq st).2) ->
  forall l st, P st -> P (serve l st).
Proof.
  intros Hstep l. unfold serve. induction l as [|[e rq] l IH]; intros st HP; [done|].
  cbn [foldl]. apply IH. by apply Hstep.
Qed.

(** X11. In a database that [init_db] created, after any sequence of
    requests, each in its own environment: the rows of every table carry
    the rowids 1, 2, ..., n in insertion order, there are as many case
    details as queries, and the k-th case detail refers to the k-th query
    (its query_id is k), so that case details and queries are in
    one-to-one correspondence. *)
Theorem fresh_database_is_numbered (l : list (env * request)) :
  let st := serve l init_db in
  let n := Z.of_nat (length (Sqlite.rows (queries st))) in
  rowids (queries st) = seqZ 1 n
  /\ rowids (case_details st) = seqZ 1 n
  /\ query_ids st = seqZ 1 n
  /\ rowids (cause_lists st)
     = seqZ 1 (Z.of_nat (length (Sqlite.rows (cause_lists st)))).
Proof.
  cbn zeta.
  assert (Hn : numbered_store (serve l init_db)).
  { apply (serve_invariant numbered_store); [apply app_numbered|].
    repeat split. }
  destruct Hn as ((Hq & _) & (Hc & _) & (Hl & _) & Hfk).
  assert (Hlen : length (Sqlite.rows (case_details (serve l init_db)))
                 = length (Sqlite.rows (queries (serve l init_db)))).
  { apply (f_equal length) in Hfk. unfold query_ids, rowids in Hfk.
    by rewrite length_map, length_fmap in Hfk. }
  split; [done|]. split; [by rewrite Hc, Hlen|]. split; [by rewrite Hfk|done].
Qed.

Lemma search_case_keyed e f st : keyed st -> keyed (search_case e f st).2.
Proof.
  intros (Hq & Hc & Hl & Hfk).
  search_case_cases e f st; cbn [snd]; try done.
  repeat split; cbn [queries case_details cause_lists].
  - by apply NoDup_rowids_insert.
  - by apply NoDup_rowids_insert.
  - done.
  - intros i. rewrite query_ids_insert, rowids_insert, !elem_of_app.
    intros [Hin|Hin]; [left; by apply Hfk|by right].
Qed.

Lemma download_cause_list_keyed e f st :
  keyed st -> keyed (download_cause_list e f st).2.
Proof.
  intros (Hq & Hc & Hl & Hfk).
  download_cases e f st; try done.
  all: split; [done|]; split; [done|]; split; [by apply NoDup_rowids_insert|done].
Qed.

Lemma app_keyed e rq st : keyed st -> keyed (app e rq st).2.
Proof.
  intros Hn. unfold app. destruct (dispatch _ _) as [[]|?|]; cbn [view_function snd];
    try done.
  - by rewrite index_read_only.
  - by apply search_case_keyed.
  - by apply download_cause_list_keyed.
  - by rewrite check_case_read_only.
Qed.

(** X12. On any database, also one that did not start empty or whose
    sqlite_sequence is ahead of its rows: if the rowids of each table are
    pairwise different and every query_id of [case_details] is the rowid
    of a row of [queries], then this is so after every request, and after
    every sequence of requests. *)
Theorem keys_and_references_are_kept (st : store) :
  keyed st ->
  (forall e rq, keyed (app e rq st).2) /\ (forall l, keyed (serve l st)).
Proof.
  intros Hk. split.
  - intros e rq. by apply app_keyed.
  - intros l. apply (serve_invariant keyed); [apply app_keyed|done].
Qed.

Lemma sample_store_keyed : keyed sample_store.
Proof.
  unfold keyed, sample_store, rowids, query_ids. cbn.
  split; [|split; [|split]].
  - apply NoDup_cons. split; [|apply NoDup_singleton].
    intros H%list_elem_of_singleton. lia.
  - apply NoDup_singleton.
  - apply NoDup_nil_2.
  - intros i ->%list_elem_of_singleton. rewrite !elem_of_cons. auto.
Qed.

Lemma keys_and_references_are_kept_witness :
  keyed sample_store
  /\ keyed (app sample_env (MkRequest POST "/search_case" sample_lookup) sample_store).2
  /\ rowids (queries (app sample_env (MkRequest POST "/search_case" sample_lookup)
                         sample_store).2) = [2; 5; 10].
Proof.
  split; [apply sample_store_keyed|]. split; [|reflexivity].
  apply (proj1 (keys_and_references_are_kept sample_store sample_store_keyed)).
Defined.

(* ===================================================================== *)
(** * The PDF files                                                      *)
(* ===================================================================== *)

Lemma string_length_append a b :
  String.length (a +:+ b) = (String.length a + String.length b)%nat.
Proof. induction a as [|c a IH]; [done|]. rewrite append_cons. cbn. by rewrite IH. Qed.

Lemma append_inv_head a x y : a +:+ x = a +:+ y -> x = y.
Proof.
  induction a as [|c a IH]; [done|]. rewrite !append_cons. intros [= H]. by apply IH.
Qed.

(** Two strings with tails of the same length are equal part by part. *)
Lemma append_inv_tail a b s t :
  a +:+ s = b +:+ t -> String.length s = String.length t -> a = b /\ s = t.
Proof.
  revert b. induction a as [|c a IH]; intros [|c' b] Heq Hlen.
  - done.
  - rewrite append_nil in Heq. subst s. rewrite append_cons in Hlen.
    cbn in Hlen. rewrite string_length_append in Hlen. lia.
  - rewrite append_nil in Heq. subst t. rewrite append_cons in Hlen.
    cbn in Hlen. rewrite string_length_append in Hlen. lia.
  - rewrite !append_cons in Heq. injection Heq as -> Heq.
    destruct (IH b Heq Hlen) as [-> ->]. done.
Qed.

Lemma string_cons_inv c a b : String c a = String c b -> a = b.
Proof.
  intros H.
  exact (f_equal (fun s => match s with String _ r => r | EmptyString => "" end) H).
Qed.

Lemma all_digits_app a b : all_digits (a +:+ b) = all_digits a && all_digits b.
Proof.
  induction a as [|c a IH]; [done|].
  rewrite append_cons. cbn [all_digits]. by rewrite IH, andb_assoc.
Qed.

Lemma all_digits_zpad w n : all_digits (Py.zpad w n) = true.
Proof.
  revert n. induction w as [|w IH]; intros n; [done|].
  cbn [Py.zpad]. rewrite all_digits_app, IH. cbn [all_digits].
  by rewrite isdigit_chr.
Qed.

(** The stamp %Y%m%d is made of digits, on every platform. *)
Lemma all_digits_strftime_Ymd p d : all_digits (Datetime.strftime_Ymd p d) = true.
Proof.
  unfold Datetime.strftime_Ymd, Datetime.strftime_Y.
  repeat case_match; by rewrite !all_digits_app, !all_digits_zpad.
Qed.

(** A text, an underscore and digits: the digits are the longest run of
    digits at the end, so the two parts can be read off the whole. *)
Lemma underscore_digits_inj a b s t :
  all_digits s = true -> all_digits t = true ->
  a +:+ "_" +:+ s = b +:+ "_" +:+ t -> a = b /\ s = t.
Proof.
  intros Hs Ht. revert b. induction a as [|c a IH]; intros [|c' b].
  - change (String "_" s = String "_" t -> "" = "" /\ s = t).
    by intros ->%string_cons_inv.
  - change (String "_" s = String c' (b +:+ "_" +:+ t) -> "" = String c' b /\ s = t).
    intros [= <- ->]. rewrite all_digits_app in Hs. cbn in Hs.
    rewrite andb_false_r in Hs. discriminate.
  - change (String c (a +:+ "_" +:+ s) = String "_" t -> String c a = "" /\ s = t).
    intros [= -> <-]. rewrite all_digits_app in Ht. cbn in Ht.
    rewrite andb_false_r in Ht. discriminate.
  - change (String c (a +:+ "_" +:+ s) = String c' (b +:+ "_" +:+ t)
            -> String c a = String c' b /\ s = t).
    intros [= -> H]. by destruct (IH b H) as [-> ->].
Qed.

Lemma pdf_filename_inj p court_type d court_type' d' :
  pdf_filename_of p court_type d = pdf_filename_of p court_type' d' ->
  court_type = court_type' /\ Datetime.strftime_Ymd p d = Datetime.strftime_Ymd p d'.
Proof.
  unfold pdf_filename_of. intros H%append_inv_head.
  assert (H' : (court_type +:+ "_" +:+ Datetime.strftime_Ymd p d) +:+ ".pdf"
               = (court_type' +:+ "_" +:+ Datetime.strftime_Ymd p d') +:+ ".pdf").
  { revert H. generalize (Datetime.strftime_Ymd p d), (Datetime.strftime_Ymd p d').
    intros s t. clear.
    assert (Hassoc : forall x y z : string, (x +:+ y) +:+ z = x +:+ y +:+ z).
    { intros x y z. induction x as [|c x IH]; [done|].
      rewrite !append_cons. by rewrite IH. }
    by rewrite !Hassoc. }
  apply append_inv_tail in H' as [H' _]; [|done].
  apply underscore_digits_inj in H'; [done| |]; apply all_digits_strftime_Ymd.
Qed.

Lemma int_zpad_1 n : 0 <= n <= 9 -> Py.long_from_string (Py.zpad 1 n) = Py.Ok n.
Proof. intros Hn. digit_cases n Hn'; reflexivity. Qed.

Lemma zpad_3 n :
  Py.zpad 3 n
  = String (Py.chr (48 + (n / 10 / 10) mod 10))
      (String (Py.chr (48 + (n / 10) mod 10))
         (String (Py.chr (48 + n mod 10)) "")).
Proof. reflexivity. Qed.

Lemma int_zpad_3 n : 0 <= n <= 999 -> Py.long_from_string (Py.zpad 3 n) = Py.Ok n.
Proof.
  intros Hn. rewrite zpad_3.
  pose proof (Z.mod_pos_bound (n / 10) 10 ltac:(lia)).
  pose proof (Z.mod_pos_bound n 10 ltac:(lia)).
  rewrite int_leading_digit by (Z.div_mod_to_equations; lia).
  rewrite !scan_digits_digit by lia. cbn. f_equal.
  Z.div_mod_to_equations; lia.
Qed.

(** The year can be read off what %Y writes. *)
Lemma int_strftime_Y p y :
  0 <= y <= 9999 -> Py.long_from_string (Datetime.strftime_Y p y) = Py.Ok y.
Proof.
  intros Hy. unfold Datetime.strftime_Y.
  destruct (Py.pads_year p || (1000 <=? y)) eqn:H4; [by apply int_zpad_4|].
  apply orb_false_elim in H4 as [_ H4%Z.leb_gt].
  destruct (Z.leb_spec 100 y); [apply int_zpad_3; lia|].
  destruct (Z.leb_spec 10 y); [apply int_zpad_2; lia|apply int_zpad_1; lia].
Qed.

(** A date of the calendar can be read off its stamp: the last four
    digits are the month and the day, the digits before them the year. *)
Lemma strftime_Ymd_inj p d d' :
  valid_date d -> valid_date d' ->
  Datetime.strftime_Ymd p d = Datetime.strftime_Ymd p d' -> d = d'.
Proof.
  intros Hv Hv' Heq.
  pose proof (days_in_month_le (Datetime.year d) (Datetime.month d)).
  pose proof (days_in_month_le (Datetime.year d') (Datetime.month d')).
  apply make_date_valid in Hv as (-> & Hy & Hm & Hd).
  apply make_date_valid in Hv' as (-> & Hy' & Hm' & Hd').
  cbn [Datetime.year Datetime.month Datetime.day] in *.
  unfold Datetime.strftime_Ymd in Heq.
  cbn [Datetime.year Datetime.month Datetime.day] in Heq.
  apply append_inv_tail in Heq as [HY Htail].
  2: { rewrite !zpad_2. by repeat first [rewrite append_cons | rewrite append_nil]. }
  assert (Hparts : Py.zpad 2 (Datetime.month d) = Py.zpad 2 (Datetime.month d')
                   /\ Py.zpad 2 (Datetime.day d) = Py.zpad 2 (Datetime.day d')).
  { rewrite !zpad_2 in *.
    repeat first [rewrite append_cons in Htail | rewrite append_nil in Htail].
    injection Htail as -> -> -> ->. done. }
  destruct Hparts as (HM & HD).
  apply (f_equal Py.long_from_string) in HY, HM, HD.
  rewrite !int_strftime_Y in HY by lia. rewrite !int_zpad_2 in HM, HD by lia.
  destruct d, d'. cbn in *. congruence.
Qed.

(** A download answered with an attachment: the name of the attachment and
    the new store. *)
Lemma download_attachment_inv e f st pdf name mime :
  (download_cause_list e f st).1 = MkResponse (Attachment pdf name mime) 200 ->
  exists d raw,
    target_date_of e (form_get f "date") = Py.Ok (inr d)
    /\ name = pdf_filename_of (platform e) (court_type_of f) d
    /\ (download_cause_list e f st).2
       = with_cause_list e (court_type_of f) d pdf raw st.
Proof.
  download_cases e f st; try discriminate.
  intros [= <- <- <-]. by exists d, raw.
Qed.

(** X15. The file name cause_list_<court_type>_<date as %Y%m%d>.pdf is
    unambiguous, whether the C library pads %Y or not: two names are equal
    exactly when the court types are equal and the date stamps are equal,
    also when a court type contains underscores or digits; and two dates
    of the calendar have the same stamp only if they are the same date. *)
Theorem pdf_names_are_unambiguous (p : Py.platform) (court_type court_type' : string)
    (d d' : Datetime.date) :
  (pdf_filename_of p court_type d = pdf_filename_of p court_type' d' <->
   court_type = court_type'
   /\ Datetime.strftime_Ymd p d = Datetime.strftime_Ymd p d')
  /\ (valid_date d -> valid_date d' ->
      Datetime.strftime_Ymd p d = Datetime.strftime_Ymd p d' -> d = d').
Proof.
  split.
  - split.
    + apply pdf_filename_inj.
    + unfold pdf_filename_of. by intros [-> ->].
  - apply strftime_Ymd_inj.
Qed.

Lemma pdf_names_are_unambiguous_witness :
  pdf_filename_of glibc "x_1" (Datetime.MkDate 999 12 31)
  <> pdf_filename_of glibc "x" (Datetime.MkDate 1999 12 31)
  /\ (Datetime.strftime_Ymd glibc (Datetime.MkDate 2024 2 29)
        = Datetime.strftime_Ymd glibc (Datetime.MkDate 2024 2 29) ->
      Datetime.MkDate 2024 2 29 = Datetime.MkDate 2024 2 29).
Proof.
  split.
  - intros H.
    apply (proj1 (pdf_names_are_unambiguous glibc "x_1" "x"
                    (Datetime.MkDate 999 12 31) (Datetime.MkDate 1999 12 31))) in H.
    destruct H as [H _]. discriminate H.
  - apply (proj2 (pdf_names_are_unambiguous glibc "high_court" "high"
                    (Datetime.MkDate 2024 2 29) (Datetime.MkDate 2024 2 29)));
      reflexivity.
Defined.

(** X14. Two successful downloads with the same download name, that is
    for the same court type and date, leave two rows in [cause_lists]
    with the same path and one file at that path, which holds the PDF of
    the later download: the PDF of the earlier one is overwritten. *)
Theorem repeated_download_overwrites (e1 e2 : env) (f1 f2 : form) (st : store)
    pdf1 pdf2 name mime :
  let st1 := (download_cause_list e1 f1 st).2 in
  let st2 := (download_cause_list e2 f2 st1).2 in
  (download_cause_list e1 f1 st).1 = MkResponse (Attachment pdf1 name mime) 200 ->
  (download_cause_list e2 f2 st1).1 = MkResponse (Attachment pdf2 name mime) 200 ->
  files st2 !! ("static/pdfs/" +:+ name) = Some pdf2
  /\ exists i1 r1 i2 r2,
       Sqlite.rows (cause_lists st2)
         = Sqlite.rows (cause_lists st) ++ [(i1, r1); (i2, r2)]
       /\ cl_pdf_path r1 = "static/pdfs/" +:+ name
       /\ cl_pdf_path r2 = "static/pdfs/" +:+ name.
Proof.
  cbn zeta.
  intros (d1 & raw1 & _ & Hn1 & Hst1)%download_attachment_inv.
  intros (d2 & raw2 & _ & Hn2 & Hst2)%download_attachment_inv.
  rewrite Hst2, Hst1. unfold with_cause_list. cbn [files cause_lists]. split.
  - rewrite Hn2 at 1. fold (pdf_path_of (platform e2) (court_type_of f2) d2).
    by rewrite lookup_insert_eq.
  - eexists _, _, _, _. split; [|split].
    + cbn [Sqlite.insert fst Sqlite.rows]. by rewrite <- app_assoc.
    + cbn [cl_pdf_path new_cause_list_row]. unfold pdf_path_of. by rewrite Hn1.
    + cbn [cl_pdf_path new_cause_list_row]. unfold pdf_path_of. by rewrite Hn2.
Qed.

Lemma repeated_download_overwrites_witness :
  let f := [("court_type", "high_court"); ("date", "2024-02-29")] in
  let st1 := (download_cause_list sample_env f init_db).2 in
  let st2 := (download_cause_list later_env f st1).2 in
  files st1 !! "static/pdfs/cause_list_high_court_20240229.pdf" = Some sample_pdf
  /\ files st2 !! ("static/pdfs/" +:+ "cause_list_high_court_20240229.pdf")
     = Some [Byte.x25].
Proof.
  cbn zeta. split; [reflexivity|].
  apply (repeated_download_overwrites sample_env later_env
           [("court_type", "high_court"); ("date", "2024-02-29")]
           [("court_type", "high_court"); ("date", "2024-02-29")]
           init_db sample_pdf [Byte.x25]
           "cause_list_high_court_20240229.pdf" "application/pdf");
    reflexivity.
Defined.

(* ===================================================================== *)
(** * The fallback PDF renderer                                          *)
(* ===================================================================== *)

Lemma draw_cases_in_page l y x y' text :
  100 <= y <= 750 ->
  drawString x y' text ∈ CourtScraper.draw_cases l y ->
  x = 100 /\ 85 <= y' <= 750.
Proof.
  revert y. induction l as [|case l IH]; intros y Hy; cbn [CourtScraper.draw_cases].
  - by intros ?%elem_of_nil.
  - cbn zeta. rewrite elem_of_app, !elem_of_cons, elem_of_nil.
    intros [[[= -> -> _]|[[= -> -> _]|[]]]|Hin]; [lia|lia|].
    destruct (y - 40 <? 100) eqn:Hbreak.
    + apply elem_of_cons in Hin as [[=]|Hin]. apply (IH 750); [lia|done].
    + apply (IH (y - 40)); [lia|done].
Qed.

Lemma texts_app a b : texts (a ++ b) = texts a ++ texts b.
Proof.
  induction a as [|[x y t| |] a IH]; cbn; [done| |done|done]. by rewrite IH.
Qed.

Lemma page_breaks_app a b : page_breaks (a ++ b) = page_breaks a + page_breaks b.
Proof.
  induction a as [|op a IH]; [done|].
  rewrite <- app_comm_cons. destruct op; cbn [page_breaks]; lia.
Qed.

Lemma texts_draw_cases l y :
  texts (CourtScraper.draw_cases l y) = flat_map case_lines l.
Proof.
  revert y. induction l as [|case l IH]; intros y; [done|].
  cbn [CourtScraper.draw_cases flat_map]. cbn zeta. rewrite texts_app.
  unfold case_lines at 1. cbn [texts]. f_equal.
  destruct (y - 40 <? 100); cbn [texts]; apply IH.
Qed.

(** The cases a page takes from the position [y] on: one line group every
    40 units down to 100. *)
Lemma page_breaks_draw_cases l y :
  100 <= y <= 750 ->
  page_breaks (CourtScraper.draw_cases l y)
  = let n := Z.of_nat (length l) in
    let room := (y - 100) / 40 + 1 in
    if n <? room then 0 else 1 + (n - room) / 17.
Proof.
  revert y. induction l as [|case l IH]; intros y Hy.
  - cbn [CourtScraper.draw_cases page_breaks length]. cbn zeta.
    destruct (Z.ltb_spec (Z.of_nat 0) ((y - 100) / 40 + 1)); [done|].
    Z.div_mod_to_equations; lia.
  - cbn [CourtScraper.draw_cases length]. cbn zeta.
    rewrite page_breaks_app, Nat2Z.inj_succ. cbn [page_breaks].
    destruct (Z.ltb_spec (y - 40) 100) as [Hbreak|Hbreak].
    + cbn [page_breaks]. rewrite (IH 750) by lia. cbn zeta.
      change ((750 - 100) / 40 + 1) with 17.
      assert ((y - 100) / 40 = 0) as -> by (Z.div_mod_to_equations; lia).
      destruct (Z.ltb_spec (Z.of_nat (length l)) 17),
               (Z.ltb_spec (Z.succ (Z.of_nat (length l))) (0 + 1));
        Z.div_mod_to_equations; lia.
    + rewrite (IH (y - 40)) by lia. cbn zeta.
      assert ((y - 40 - 100) / 40 + 1 = (y - 100) / 40) as ->
        by (Z.div_mod_to_equations; lia).
      destruct (Z.ltb_spec (Z.of_nat (length l)) ((y - 100) / 40)),
               (Z.ltb_spec (Z.succ (Z.of_nat (length l))) ((y - 100) / 40 + 1));
        try lia.
      replace (Z.succ (Z.of_nat (length l)) - ((y - 100) / 40 + 1))
        with (Z.of_nat (length l) - (y - 100) / 40) by lia.
      lia.
Qed.

(** X16. The fallback renderer stays on the page: whatever the cause
    list, every string is drawn at x = 100 and at a height between 85 and
    750 (a letter page is 792 high), because the position restarts at 750
    on a new page as soon as it falls below 100. *)
Theorem fallback_stays_on_the_page (cause_list_data : cause_list) x y text :
  drawString x y text ∈ CourtScraper.fallback_ops cause_list_data ->
  x = 100 /\ 85 <= y <= 750.
Proof.
  unfold CourtScraper.fallback_ops. rewrite !elem_of_app, !elem_of_cons.
  intros [[[= -> -> _]|[[= -> -> _]|[]%elem_of_nil]]|[Hin|[[=]|[]%elem_of_nil]]];
    [lia|lia|].
  apply (draw_cases_in_page (cases cause_list_data) 700 x y text); [lia|done].
Qed.

Lemma fallback_stays_on_the_page_witness :
  let data := MkCauseList "High Court Court" "2024-02-29" CourtScraper.mock_cases in
  drawString 100 605 "Parties: Doe vs Doe" ∈ CourtScraper.fallback_ops data
  /\ (100 = 100 /\ 85 <= 605 <= 750).
Proof.
  cbn zeta.
  assert (H : drawString 100 605 "Parties: Doe vs Doe"
              ∈ CourtScraper.fallback_ops
                  (MkCauseList "High Court Court" "2024-02-29" CourtScraper.mock_cases)).
  { vm_compute. do 7 apply list_elem_of_further. apply list_elem_of_here. }
  split; [exact H|].
  exact (fallback_stays_on_the_page _ _ _ _ H).
Defined.

(** X17. The fallback renderer draws the heading, the date and then, for
    every case of the list in order, the line of its number and type and
    the line of its parties, each once, whatever page breaks fall in
    between; the last canvas call, and only the last, is [save]. *)
Theorem fallback_draws_every_case (cause_list_data : cause_list) :
  texts (CourtScraper.fallback_ops cause_list_data)
  = [ court cause_list_data +:+ " - Cause List";
      "Date: " +:+ date cause_list_data ]
    ++ flat_map case_lines (cases cause_list_data)
  /\ exists ops, CourtScraper.fallback_ops cause_list_data = ops ++ [save]
                 /\ save ∉ ops.
Proof.
  split.
  - unfold CourtScraper.fallback_ops. rewrite !texts_app, texts_draw_cases.
    cbn [texts]. by rewrite app_nil_r.
  - unfold CourtScraper.fallback_ops. eexists. split; [by rewrite app_assoc|].
    rewrite elem_of_app, !elem_of_cons, elem_of_nil.
    intros [[[=]|[[=]|[]]]|Hin].
    assert (Hno : forall l y, save ∉ CourtScraper.draw_cases l y).
    { clear. induction l as [|c l IH]; intros y; cbn [CourtScraper.draw_cases].
      - apply not_elem_of_nil.
      - cbn zeta. rewrite elem_of_app, !elem_of_cons, elem_of_nil.
        intros [[[=]|[[=]|[]]]|Hin].
        destruct (y - 40 <? 100).
        + apply elem_of_cons in Hin as [[=]|Hin]. by apply IH in Hin.
        + by apply IH in Hin. }
    by apply Hno in Hin.
Qed.

(** X18. The page breaks of the fallback renderer: a list of fewer than
    16 cases is drawn on one page; from 16 cases on there is a break after
    the 16th case and after every 17th case from there, also when no case
    follows the break. *)
Theorem fallback_page_breaks (cause_list_data : cause_list) :
  page_breaks (CourtScraper.fallback_ops cause_list_data)
  = let n := Z.of_nat (length (cases cause_list_data)) in
    if n <? 16 then 0 else 1 + (n - 16) / 17.
Proof.
  unfold CourtScraper.fallback_ops. rewrite !page_breaks_app.
  rewrite page_breaks_draw_cases by lia. cbn [page_breaks]. cbn zeta.
  change ((700 - 100) / 40 + 1) with 16. lia.
Qed.

(* ===================================================================== *)
(** * The tables as a record of what succeeded                           *)
(* ===================================================================== *)

Lemma length_rows_insert {R} (t : Sqlite.table R) (r : R) :
  length (Sqlite.rows (Sqlite.insert t r).1) = (length (Sqlite.rows t) + 1)%nat.
Proof. cbn. by rewrite length_app. Qed.

Lemma search_case_rows e f st :
  let st' := (search_case e f st).2 in
  let n := one_if (status (search_case e f st).1 =? 200) in
  length (Sqlite.rows (queries st')) = (length (Sqlite.rows (queries st)) + n)%nat
  /\ length (Sqlite.rows (case_details st'))
     = (length (Sqlite.rows (case_details st)) + n)%nat
  /\ cause_lists st' = cause_lists st.
Proof.
  cbn zeta. search_case_cases e f st; cbn [fst snd].
  - cbn [queries case_details cause_lists]. by rewrite !length_rows_insert.
  - cbn. by rewrite !Nat.add_0_r.
  - cbn. by rewrite !Nat.add_0_r.
  - cbn. by rewrite !Nat.add_0_r.
  - cbn. by rewrite !Nat.add_0_r.
Qed.

Lemma download_cause_list_rows e f st :
  let st' := (download_cause_list e f st).2 in
  let n := one_if (status (download_cause_list e f st).1 =? 200) in
  queries st' = queries st
  /\ case_details st' = case_details st
  /\ (length (Sqlite.rows (cause_lists st)) + n
      <= length (Sqlite.rows (cause_lists st'))
      <= length (Sqlite.rows (cause_lists st)) + 1)%nat.
Proof.
  cbn zeta. download_cases e f st; unfold with_cause_list;
    cbn [fst snd status one_if Z.eqb Pos.eqb queries case_details cause_lists];
    rewrite ?length_rows_insert; repeat split; lia.
Qed.

Lemma app_rows e rq st :
  let st' := (app e rq st).2 in
  let ok := status (app e rq st).1 =? 200 in
  length (Sqlite.rows (queries st'))
    = (length (Sqlite.rows (queries st))
       + one_if (reaches ep_search_case rq && ok))%nat
  /\ length (Sqlite.rows (case_details st'))
     = (length (Sqlite.rows (case_details st))
        + one_if (reaches ep_search_case rq && ok))%nat
  /\ (length (Sqlite.rows (cause_lists st))
      + one_if (reaches ep_download_cause_list rq && ok)
      <= length (Sqlite.rows (cause_lists st'))
      <= length (Sqlite.rows (cause_lists st))
         + one_if (reaches ep_download_cause_list rq))%nat.
Proof.
  cbn zeta. unfold reaches, app.
  destruct (dispatch (req_method rq) (req_path rq)) as [[]|?|];
    cbn [view_function endpoint_eqb andb one_if snd].
  - rewrite index_read_only. lia.
  - destruct (search_case_rows e (req_form rq) st) as (-> & -> & ->). lia.
  - destruct (download_cause_list_rows e (req_form rq) st) as (-> & -> & H). lia.
  - rewrite check_case_read_only. lia.
  - lia.
  - lia.
Qed.

(** X19. The tables count what succeeded: after any sequence of requests,
    [queries] and [case_details] have each grown by the number of case
    lookups that were answered with status 200; [cause_lists] has grown by
    at least the number of cause-list downloads that were answered with
    status 200 and by at most the number of download requests (a download
    whose attachment [send_file] refuses leaves its row); no other request
    adds a row. *)
Theorem tables_count_successes (l : list (env * request)) (st : store) :
  let st' := serve l st in
  length (Sqlite.rows (queries st'))
    = (length (Sqlite.rows (queries st)) + answered_200 ep_search_case l st)%nat
  /\ length (Sqlite.rows (case_details st'))
     = (length (Sqlite.rows (case_details st)) + answered_200 ep_search_case l st)%nat
  /\ (length (Sqlite.rows (cause_lists st)) + answered_200 ep_download_cause_list l st
      <= length (Sqlite.rows (cause_lists st'))
      <= length (Sqlite.rows (cause_lists st)) + requests_of ep_download_cause_list l)%nat.
Proof.
  cbn zeta. revert st. induction l as [|[e rq] l IH]; intros st.
  - cbn. lia.
  - unfold serve in *. cbn [foldl answered_200 requests_of fst snd]. cbn zeta.
    destruct (IH (app e rq st).2) as (-> & -> & H).
    destruct (app_rows e rq st) as (-> & -> & H'). lia.
Qed.
